(** * PolicyGuard: the action-validation and policy-decision engine

    A shallow embedding of the tool logic of PolicyGuard
    ([src/tools/validate_action.py], [src/tools/create_policy.py],
    [src/tools/report_incident.py], [src/core/utils.py]) and the
    properties of its specification.

    Conventions of the embedding.
    - A decoded JSON document is a [value]; a JSON object keeps its keys
      in insertion order, as a Python [dict] does.  Numbers are integers.
    - Text is a Rocq [string]; the characters are those of 7-bit ASCII.
    - A Python exception is the outcome [Raise]; the outcome [Unmodelled]
      marks the places where the code leaves the part of Python that is
      modelled here (regular-expression syntax beyond characters, [.],
      anchors and the repeat operators; matching a text with a character
      beyond 7-bit ASCII; ordering of non-numeric sort keys).
    - The four JSON files of the data directory are the fields of
      [world], each holding a document of the shape the tools write (an
      object of agent records, lists of policies, audit entries and
      incidents); reading a file succeeds, and so does writing it,
      except for an integer that [json.dump] refuses (see
      [save_policies]).  Documents are nested less deep than the
      recursion limit of the interpreter lets [json.dump] go.  The clock
      and the UUID generator are streams read through a cursor kept in
      the same record.
    - A tool answers with [json.dumps] of a dict; the embedding returns
      that dict. *)

From Stdlib Require Import Ascii String DecimalString.
From stdpp Require Import gmap strings list sorting.

Set Default Proof Using "Type".
Local Open Scope Z_scope.

(** ** JSON values and Python's operations on them *)

#[warnings="-register-all"]
Inductive value :=
| VNull
| VBool (b : bool)
| VNum (n : Z)
| VStr (s : string)
| VList (l : list value)
| VDict (kv : list (string * value)).

Abbreviation dict := (list (string * value)).

Inductive exn := TypeError | AttributeError | ReError | ValueError | RecursionError.

Inductive outcome (A : Type) :=
| Ret (a : A)
| Raise (e : exn)
| Unmodelled.
Arguments Ret {A} a.
Arguments Raise {A} e.
Arguments Unmodelled {A}.

Definition obind {A B} (m : outcome A) (k : A → outcome B) : outcome B :=
  match m with
  | Ret a => k a
  | Raise e => Raise e
  | Unmodelled => Unmodelled
  end.

Notation "'do' x <- m ; k" := (obind m (fun x => k))
  (at level 10, x name, m at level 100, k at level 200).

(** [d.get(k)] and [d[k] = v] on a dict. *)
Fixpoint dict_get (d : dict) (k : string) : option value :=
  match d with
  | [] => None
  | (k', v) :: d' => if String.eqb k' k then Some v else dict_get d' k
  end.

Fixpoint dict_set (d : dict) (k : string) (v : value) : dict :=
  match d with
  | [] => [(k, v)]
  | (k', v') :: d' =>
      if String.eqb k' k then (k, v) :: d' else (k', v') :: dict_set d' k v
  end.

(** [d.get(k, default)] *)
Definition get_default (d : dict) (k : string) (default : value) : value :=
  match dict_get d k with Some v => v | None => default end.

(** [d.get(k)], which is [None] for an absent key. *)
Definition get_none (d : dict) (k : string) : value :=
  get_default d k VNull.

(** [x.get(...)] on an arbitrary value: only a dict has the method. *)
Definition as_dict (x : value) : outcome dict :=
  match x with
  | VDict d => Ret d
  | _ => Raise AttributeError
  end.

(** Truth value of an object, as [if x:] and [not x] take it. *)
Definition truthy (x : value) : bool :=
  match x with
  | VNull => false
  | VBool b => b
  | VNum n => negb (n =? 0)
  | VStr s => negb (String.eqb s "")
  | VList l => match l with [] => false | _ => true end
  | VDict d => match d with [] => false | _ => true end
  end.

(** [x == s] for a string literal [s]. *)
Definition eq_str (x : value) (s : string) : bool :=
  match x with
  | VStr t => String.eqb t s
  | _ => false
  end.

Fixpoint chars_of (s : string) : list value :=
  match s with
  | EmptyString => []
  | String c s' => VStr (String c EmptyString) :: chars_of s'
  end.

(** [for x in v]: the elements of a list, the characters of a string,
    the keys of a dict; anything else is not iterable. *)
Definition py_iter (v : value) : outcome (list value) :=
  match v with
  | VList l => Ret l
  | VStr s => Ret (chars_of s)
  | VDict d => Ret (map (fun kv => VStr (fst kv)) d)
  | _ => Raise TypeError
  end.

(** ** The regular expressions of [re] that the matcher can build

    [_match_pattern] hands [re.match] the text ["^" + p + "$"], [p]
    being the pattern with every [*] replaced by [.*].  The model
    covers ordinary characters, [.], [^], [$] and the repeat operators
    [*], [+], [?] (with the lazy suffix [?]); a backslash, a bracket, a
    brace, a parenthesis, a bar or a possessive suffix gives
    [Unmodelled]. *)

Inductive atom := Lit (c : ascii) | AnyChar.
Inductive quant := Once | Star | Plus | Opt.
Inductive item := At_beginning | At_end | Chars (a : atom) (q : quant).

Definition is_char (c : ascii) (s : string) : bool :=
  String.eqb (String c EmptyString) s.

Definition repeat_of (c : ascii) : option quant :=
  if is_char c "*" then Some Star
  else if is_char c "+" then Some Plus
  else if is_char c "?" then Some Opt
  else None.

Definition beyond_fragment (c : ascii) : bool :=
  is_char c "\" || is_char c "[" || is_char c "{" ||
  is_char c "(" || is_char c ")" || is_char c "|".

(** The parser of [re], left to right.  [acc] is the sequence parsed so
    far, last item first; [after_repeat] says that the previous
    character was a repeat operator, so that a [?] is its lazy suffix. *)
Fixpoint sre_parse (s : string) (acc : list item) (after_repeat : bool)
  : outcome (list item) :=
  match s with
  | EmptyString => Ret (rev acc)
  | String c s' =>
      if after_repeat && is_char c "?" then sre_parse s' acc false
      else if after_repeat && is_char c "+" then Unmodelled
      else match repeat_of c with
      | Some q =>
          match acc with
          | Chars a Once :: acc' => sre_parse s' (Chars a q :: acc') true
          | Chars _ _ :: _ => Raise ReError   (* multiple repeat *)
          | _ => Raise ReError                 (* nothing to repeat *)
          end
      | None =>
          if is_char c "." then sre_parse s' (Chars AnyChar Once :: acc) false
          else if is_char c "^" then sre_parse s' (At_beginning :: acc) false
          else if is_char c "$" then sre_parse s' (At_end :: acc) false
          else if beyond_fragment c then Unmodelled
          else sre_parse s' (Chars (Lit c) Once :: acc) false
      end
  end.

Definition newline : ascii := ascii_of_nat 10.

(** Lower case of an ASCII letter, for [re.IGNORECASE].  Between two
    7-bit characters this is all that the flag does; a character
    beyond them can be the case variant of another in Unicode (the
    Kelvin sign of [k], the long s of [s]), which is not modelled. *)
Definition seven_bit (c : ascii) : bool := Nat.ltb (nat_of_ascii c) 128.

Fixpoint ascii_text (s : string) : bool :=
  match s with
  | EmptyString => true
  | String c s' => seven_bit c && ascii_text s'
  end.

Definition lower (c : ascii) : ascii :=
  let n := nat_of_ascii c in
  if (Nat.leb 65 n && Nat.leb n 90)%bool then ascii_of_nat (n + 32) else c.

Definition ascii_eqb (c d : ascii) : bool := Ascii.eqb c d.

(** One character against an atom: a literal up to case, [.] anything
    but a newline (the flag [re.DOTALL] is not given). *)
Definition atom_ok (a : atom) (d : ascii) : bool :=
  match a with
  | Lit c => ascii_eqb (lower c) (lower d)
  | AnyChar => negb (ascii_eqb d newline)
  end.

(** Zero or more characters of [ok], then the continuation [k]. *)
Fixpoint star (ok : ascii → bool) (k : bool → string → bool)
    (at_start : bool) (s : string) : bool :=
  k at_start s ||
  match s with
  | String c s' => ok c && star ok k false s'
  | EmptyString => false
  end.

(** [$] without [re.MULTILINE]: the end of the text, or just before a
    newline that ends it. *)
Definition at_end (s : string) : bool :=
  match s with
  | EmptyString => true
  | String c EmptyString => ascii_eqb c newline
  | _ => false
  end.

(** Does the item sequence match a prefix of [s]?  [at_start] holds while
    no character has been consumed. *)
Fixpoint sre_match (its : list item) (at_start : bool) (s : string) : bool :=
  match its with
  | [] => true
  | At_beginning :: r => at_start && sre_match r at_start s
  | At_end :: r => at_end s && sre_match r at_start s
  | Chars a Once :: r =>
      match s with
      | String c s' => atom_ok a c && sre_match r false s'
      | EmptyString => false
      end
  | Chars a Opt :: r =>
      sre_match r at_start s ||
      match s with
      | String c s' => atom_ok a c && sre_match r false s'
      | EmptyString => false
      end
  | Chars a Star :: r => star (atom_ok a) (sre_match r) at_start s
  | Chars a Plus :: r =>
      match s with
      | String c s' => atom_ok a c && star (atom_ok a) (sre_match r) false s'
      | EmptyString => false
      end
  end.

(** [bool(re.match(pattern, string, re.IGNORECASE))]: the pattern is
    compiled first, and matched when both texts are 7-bit ASCII. *)
Definition re_match (pattern text : string) : outcome bool :=
  do its <- sre_parse pattern [] false;
  if ascii_text pattern && ascii_text text then Ret (sre_match its true text)
  else Unmodelled.

(** [s.replace("*", ".*")] *)
Fixpoint replace_star (s : string) : string :=
  match s with
  | EmptyString => EmptyString
  | String c s' =>
      if is_char c "*" then String "." (String "*" (replace_star s'))
      else String c (replace_star s')
  end.

(** [_match_pattern(pattern, value)] of validate_action.py. *)
Definition _match_pattern (pattern : value) (text : string) : outcome bool :=
  match pattern with
  | VStr p =>
      if String.eqb p "*" then Ret true
      else re_match ("^" +:+ replace_star p +:+ "$") text
  | _ => Raise AttributeError
  end.

(** ** The decision evaluator ([_evaluate_policies]) *)

(** The trust level hierarchy. *)
Definition trust_levels : list (string * Z) :=
  [("low", 1); ("medium", 2); ("high", 3); ("admin", 4)].

Fixpoint assoc (k : string) (table : list (string * Z)) : option Z :=
  match table with
  | [] => None
  | (k', n) :: table' => if String.eqb k' k then Some n else assoc k table'
  end.

(** The score of a level name; an unknown name scores 1. *)
Definition score_of (name : string) : Z := default 1 (assoc name trust_levels).

(** [trust_levels.get(level, 1)]; a list or a dict is not hashable. *)
Definition trust_levels_get (level : value) : outcome Z :=
  match level with
  | VStr s => Ret (score_of s)
  | VList _ | VDict _ => Raise TypeError
  | _ => Ret 1
  end.

(** [for pattern in patterns: if _match_pattern(pattern, target): ...]:
    is the body entered for some pattern?  The scan stops at the first
    match and at the first exception. *)
Fixpoint any_match (patterns : list value) (target : string) : outcome bool :=
  match patterns with
  | [] => Ret false
  | p :: ps =>
      do b <- _match_pattern p target;
      if b then Ret true else any_match ps target
  end.

(** [tools != ["*"]] *)
Definition is_star_list (tools : value) : bool :=
  match tools with
  | VList [VStr s] => String.eqb s "*"
  | _ => false
  end.

Section Engine.

(** What [str()] gives on a value that is not a string, and
    [json.loads], are Python's. *)
Variable py_repr : value → string.

(** [json.loads] on a text returns the decoded document or raises.
    The tools catch [json.JSONDecodeError] and nothing else: the
    [ValueError] for an integer of more than 4300 digits and the
    [RecursionError] for a document nested too deep are the outcome
    [Raised], which leaves the tool that called. *)
Inductive loads :=
| Decoded (v : value)
| JSONDecodeError (msg : string)
| Raised (e : exn).
Variable json_loads : string → loads.

(** A value inside an f-string. *)
Definition fmt (v : value) : string :=
  match v with
  | VStr s => s
  | _ => py_repr v
  end.

Definition deny_agent_denied_tools (target agent_id : string) : value :=
  VDict [("allowed", VBool false);
         ("reason", VStr ("Tool '" +:+ target +:+
                          "' is explicitly denied for agent '" +:+ agent_id +:+ "'"));
         ("policy_matched", VStr "agent_denied_tools")].

Definition deny_agent_allowed_tools (target agent_id : string) : value :=
  VDict [("allowed", VBool false);
         ("reason", VStr ("Tool '" +:+ target +:+
                          "' is not in allowed list for agent '" +:+ agent_id +:+ "'"));
         ("policy_matched", VStr "agent_allowed_tools")].

Definition default_allow : value :=
  VDict [("allowed", VBool true);
         ("reason", VStr "Action permitted by default policy");
         ("policy_matched", VStr "default_allow")].

(** The agent-level deny list (lines 88-96); [None] when it does not
    decide. *)
Definition check_denied_tools (denied_tools : value) (target agent_id : string)
  : outcome (option value) :=
  if truthy denied_tools then
    do patterns <- py_iter denied_tools;
    do hit <- any_match patterns target;
    Ret (if hit then Some (deny_agent_denied_tools target agent_id) else None)
  else Ret None.

(** The agent-level allow list (lines 98-109). *)
Definition check_allowed_tools (allowed_tools : value) (target agent_id : string)
  : outcome (option value) :=
  if truthy allowed_tools && negb (is_star_list allowed_tools) then
    do patterns <- py_iter allowed_tools;
    do tool_allowed <- any_match patterns target;
    Ret (if tool_allowed then None
         else Some (deny_agent_allowed_tools target agent_id))
  else Ret None.

(** The clause [trust_level_at_least] of a rule (lines 130-141). *)
Definition check_trust_at_least (policy rule condition : dict)
    (trust_level : value) (agent_trust_score : Z) (target : string)
  : outcome (option value) :=
  let required_trust := get_none condition "trust_level_at_least" in
  if truthy required_trust then
    do required_score <- trust_levels_get required_trust;
    if agent_trust_score <? required_score then
      let action := get_default rule "action" (VStr "deny") in
      if eq_str action "deny" then
        Ret (Some (VDict
          [("allowed", VBool false);
           ("reason", VStr ("Tool '" +:+ target +:+ "' requires trust level '" +:+
                            fmt required_trust +:+ "', agent has '" +:+
                            fmt trust_level +:+ "'"));
           ("policy_matched", get_default policy "id" (VStr "unknown"))]))
      else Ret None
    else Ret None
  else Ret None.

(** The clause [trust_level_below] of a rule (lines 143-161). *)
Definition check_trust_below (policy rule condition : dict)
    (agent_trust_score : Z) : outcome (option value) :=
  let below_trust := get_none condition "trust_level_below" in
  if truthy below_trust then
    do below_score <- trust_levels_get below_trust;
    if agent_trust_score <? below_score then
      let action := get_default rule "action" (VStr "deny") in
      if eq_str action "deny" then
        Ret (Some (VDict
          [("allowed", VBool false);
           ("reason", get_default rule "message"
                        (VStr ("Access denied by policy '" +:+
                               fmt (get_none policy "id") +:+ "'")));
           ("policy_matched", get_default policy "id" (VStr "unknown"))]))
      else if eq_str action "require_approval" then
        Ret (Some (VDict
          [("allowed", VBool false);
           ("require_approval", VBool true);
           ("reason", get_default rule "message"
                        (VStr "This action requires human approval"));
           ("policy_matched", get_default policy "id" (VStr "unknown"))]))
      else Ret None
    else Ret None
  else Ret None.

(** [pattern and not _match_pattern(pattern, text)]: the rule is skipped. *)
Definition pattern_excludes (pattern : value) (text : string) : outcome bool :=
  if truthy pattern then
    do b <- _match_pattern pattern text;
    Ret (negb b)
  else Ret false.

(** The body of the loop over the rules of a policy (lines 118-161):
    [Some] decision when the rule returns one, [None] when the loop goes
    on to the next rule. *)
Definition eval_rule (policy : dict) (rule : value)
    (action_type target : string) (trust_level : value) (agent_trust_score : Z)
  : outcome (option value) :=
  do rule <- as_dict rule;
  do condition <- as_dict (get_default rule "condition" (VDict []));
  do skip <- pattern_excludes (get_none condition "tool_pattern") target;
  if skip then Ret None else
  do skip <- pattern_excludes (get_none condition "action_type") action_type;
  if skip then Ret None else
  do r <- check_trust_at_least policy rule condition trust_level
            agent_trust_score target;
  match r with
  | Some decision => Ret (Some decision)
  | None => check_trust_below policy rule condition agent_trust_score
  end.

Fixpoint eval_rules (policy : dict) (rules : list value)
    (action_type target : string) (trust_level : value) (agent_trust_score : Z)
  : outcome (option value) :=
  match rules with
  | [] => Ret None
  | rule :: rules' =>
      do r <- eval_rule policy rule action_type target trust_level
                agent_trust_score;
      match r with
      | Some decision => Ret (Some decision)
      | None => eval_rules policy rules' action_type target trust_level
                  agent_trust_score
      end
  end.

(** The body of the loop over the policies (lines 112-161). *)
Definition eval_policy (policy : value)
    (action_type target : string) (trust_level : value) (agent_trust_score : Z)
  : outcome (option value) :=
  do policy <- as_dict policy;
  if negb (truthy (get_default policy "enabled" (VBool true))) then Ret None else
  do rules <- py_iter (get_default policy "rules" (VList []));
  eval_rules policy rules action_type target trust_level agent_trust_score.

Fixpoint eval_policies (policies : list value)
    (action_type target : string) (trust_level : value) (agent_trust_score : Z)
  : outcome (option value) :=
  match policies with
  | [] => Ret None
  | policy :: policies' =>
      do r <- eval_policy policy action_type target trust_level
                agent_trust_score;
      match r with
      | Some decision => Ret (Some decision)
      | None => eval_policies policies' action_type target trust_level
                  agent_trust_score
      end
  end.

(** [_evaluate_policies(action_type, target, agent_id, parameters,
    agents, policies)] *)
Definition _evaluate_policies (action_type target agent_id : string)
    (parameters : value) (agents : gmap string dict) (policies : list value)
  : outcome value :=
  let agent := default [] (agents !! agent_id) in
  let trust_level := get_default agent "trust_level" (VStr "low") in
  let allowed_tools := get_default agent "allowed_tools" (VList []) in
  let denied_tools := get_default agent "denied_tools" (VList []) in
  do agent_trust_score <- trust_levels_get trust_level;
  do r <- check_denied_tools denied_tools target agent_id;
  match r with
  | Some decision => Ret decision
  | None =>
  do r <- check_allowed_tools allowed_tools target agent_id;
  match r with
  | Some decision => Ret decision
  | None =>
  do r <- eval_policies policies action_type target trust_level
            agent_trust_score;
  match r with
  | Some decision => Ret decision
  | None => Ret default_allow
  end end end.

(** ** The store, the clock and the identifier generator (core/utils.py) *)

Record world := World {
  agents_json : gmap string dict;     (* agents.json *)
  policies_json : list value;         (* policies.json *)
  audit_log_json : list value;        (* audit_log.json *)
  incidents_json : list value;        (* incidents.json *)
  clock : nat → string;               (* the instants read by get_timestamp *)
  clock_pos : nat;
  uuid_hex : nat → string;            (* uuid4().hex[:12], draw after draw *)
  uuid_pos : nat
}.

(** A computation reads and writes the world and ends in an outcome;
    what it wrote before an exception stays written. *)
Definition M (A : Type) : Type := world → outcome A * world.

Definition ret {A} (a : A) : M A := fun w => (Ret a, w).

Definition bind {A B} (m : M A) (k : A → M B) : M B :=
  fun w =>
    match m w with
    | (Ret a, w') => k a w'
    | (Raise e, w') => (Raise e, w')
    | (Unmodelled, w') => (Unmodelled, w')
    end.

Definition lift {A} (o : outcome A) : M A := fun w => (o, w).

Notation "'io' x <- m ; k" := (bind m (fun x => k))
  (at level 10, x name, m at level 100, k at level 200).
Notation "'io' ' pat <- m ; k" := (bind m (fun x => let 'pat := x in k))
  (at level 10, pat pattern, m at level 100, k at level 200).

(** [generate_id(prefix)] *)
Definition generate_id (prefix : string) : M string :=
  fun w =>
    (Ret (prefix +:+ "_" +:+ uuid_hex w (uuid_pos w)),
     World (agents_json w) (policies_json w) (audit_log_json w)
           (incidents_json w) (clock w) (clock_pos w)
           (uuid_hex w) (S (uuid_pos w))).

(** [get_timestamp()] *)
Definition get_timestamp : M string :=
  fun w =>
    (Ret (clock w (clock_pos w)),
     World (agents_json w) (policies_json w) (audit_log_json w)
           (incidents_json w) (clock w) (S (clock_pos w))
           (uuid_hex w) (uuid_pos w)).

(** [json.dump] writes every document made of texts, booleans, [None],
    lists, objects and integers, except an integer of more than 4300
    digits, on which the conversion to text raises [ValueError]. *)
Definition max_str_digits : Z := 4300.

Definition int_dumps (n : Z) : bool := Z.abs n <? 10 ^ max_str_digits.

Fixpoint json_dumps (v : value) : bool :=
  match v with
  | VNum n => int_dumps n
  | VList l => forallb json_dumps l
  | VDict d => forallb (fun kv => let '(_, x) := kv in json_dumps x) d
  | _ => true
  end.

(** [load_json_file] and [save_json_file], file by file.  What the
    tools put into the agent file and the two logs is made of texts,
    booleans, the length of a list and documents that [json.load] and
    [json.loads] returned, whose integers [json.dump] writes back: for
    these three files the digit limit never comes into play, and their
    writing succeeds. *)
Definition load_agents : M (gmap string dict) := fun w => (Ret (agents_json w), w).
Definition load_policies : M (list value) := fun w => (Ret (policies_json w), w).

Definition save_agents (agents : gmap string dict) : M bool :=
  fun w =>
    (Ret true,
     World agents (policies_json w) (audit_log_json w) (incidents_json w)
           (clock w) (clock_pos w) (uuid_hex w) (uuid_pos w)).

(** [save_json_file("policies.json", policies)].  The policy list holds
    the one integer that comes from outside, the [priority] of
    [create_policy]: when it cannot be written, [json.dump] stops in
    the middle of the file, [save_json_file] returns [False] and every
    later [load_json_file] finds a text that does not decode and gives
    its default, the empty list. *)
Definition save_policies (policies : list value) : M bool :=
  fun w =>
    if forallb json_dumps policies then
      (Ret true,
       World (agents_json w) policies (audit_log_json w) (incidents_json w)
             (clock w) (clock_pos w) (uuid_hex w) (uuid_pos w))
    else
      (Ret false,
       World (agents_json w) [] (audit_log_json w) (incidents_json w)
             (clock w) (clock_pos w) (uuid_hex w) (uuid_pos w)).

Inductive log_file := Audit_log | Incidents.

Definition load_log (f : log_file) : M (list value) :=
  fun w =>
    (Ret (match f with Audit_log => audit_log_json w
                     | Incidents => incidents_json w end), w).

Definition save_log (f : log_file) (data : list value) : M bool :=
  fun w =>
    (Ret true,
     match f with
     | Audit_log =>
         World (agents_json w) (policies_json w) data (incidents_json w)
               (clock w) (clock_pos w) (uuid_hex w) (uuid_pos w)
     | Incidents =>
         World (agents_json w) (policies_json w) (audit_log_json w) data
               (clock w) (clock_pos w) (uuid_hex w) (uuid_pos w)
     end).

Definition max_items : nat := 1000.

(** [data.append(item)], then [data[-max_items:]] when it is too long. *)
Definition append_capped (data : list value) (item : value) : list value :=
  let data := data ++ [item] in
  if Nat.ltb max_items (length data)
  then drop (length data - max_items) data
  else data.

(** [append_to_json_list(filename, item)] *)
Definition append_to_json_list (f : log_file) (item : value) : M bool :=
  io data <- load_log f;
  save_log f (append_capped data item).

(** [json.loads(text) if text else {}] under [except
    json.JSONDecodeError], with [fallback] for a text that does not
    decode; any other exception of [json.loads] is not caught. *)
Definition loads_or (text : string) (fallback : value) : outcome value :=
  if String.eqb text "" then Ret (VDict [])
  else match json_loads text with
       | Decoded v => Ret v
       | JSONDecodeError _ => Ret fallback
       | Raised e => Raise e
       end.

(** ** validate_action.py *)

Definition _load_policies : M (list value) := load_policies.
Definition _load_agents : M (gmap string dict) := load_agents.

Definition auto_registered_agent (agent_id timestamp : string) : dict :=
  [("agent_id", VStr agent_id);
   ("name", VStr ("Auto-registered: " +:+ agent_id));
   ("trust_level", VStr "low");
   ("registered_at", VStr timestamp);
   ("auto_registered", VBool true)].

Definition suspended_result (action_id agent_id : string) : dict :=
  [("action_id", VStr action_id);
   ("allowed", VBool false);
   ("reason", VStr ("Agent '" +:+ agent_id +:+ "' is suspended"));
   ("warnings", VList [])].

Definition evaluated_result (action_id : string) (eval_result : dict) : dict :=
  [("action_id", VStr action_id);
   ("allowed", get_default eval_result "allowed" (VBool false));
   ("require_approval", get_default eval_result "require_approval" (VBool false));
   ("reason", get_default eval_result "reason" (VStr ""));
   ("warnings", VList [])].

Definition violation_incident (incident_id timestamp agent_id action_id
    action_type target : string) (reason : value) : value :=
  VDict [("incident_id", VStr incident_id);
         ("timestamp", VStr timestamp);
         ("type", VStr "policy_violation");
         ("severity", VStr "medium");
         ("agent_id", VStr agent_id);
         ("action_id", VStr action_id);
         ("details", VStr ("Agent '" +:+ agent_id +:+ "' attempted '" +:+
                           action_type +:+ "' on '" +:+ target +:+
                           "' - DENIED: " +:+ fmt reason))].

(** [validate_action(action_type, target, agent_id, parameters, context)];
    the value computed is the dict [result] that the tool serialises. *)
Definition validate_action (action_type target agent_id parameters context : string)
  : M value :=
  io params <- lift (loads_or parameters (VDict []));
  io action_id <- generate_id "act";
  io timestamp <- get_timestamp;
  io policies <- _load_policies;
  io agents <- _load_agents;
  io agents <-
    match agents !! agent_id with
    | None =>
        let agents := <[agent_id := auto_registered_agent agent_id timestamp]> agents in
        io _ <- save_agents agents;
        ret agents
    | Some _ => ret agents
    end;
  let agent := default [] (agents !! agent_id) in
  io result <-
    (if eq_str (get_none agent "status") "suspended" then
       ret (suspended_result action_id agent_id)
     else
       io eval_result <- lift (_evaluate_policies action_type target agent_id
                                 params agents policies);
       io eval_result <- lift (as_dict eval_result);
       ret (evaluated_result action_id eval_result));
  io entry_id <- generate_id "aud";
  let audit_entry :=
    VDict [("entry_id", VStr entry_id);
           ("action_id", VStr action_id);
           ("timestamp", VStr timestamp);
           ("agent_id", VStr agent_id);
           ("action", VDict [("type", VStr action_type);
                             ("target", VStr target);
                             ("parameters", params);
                             ("context", VStr context)]);
           ("evaluation",
            VDict [("allowed", get_none result "allowed");
                   ("require_approval",
                    get_default result "require_approval" (VBool false));
                   ("reason", get_none result "reason")])] in
  io _ <- append_to_json_list Audit_log audit_entry;
  io _ <-
    (if negb (truthy (get_none result "allowed")) then
       io incident_id <- generate_id "inc";
       append_to_json_list Incidents
         (violation_incident incident_id timestamp agent_id action_id
            action_type target (get_none result "reason"))
     else ret true);
  ret (VDict result).

(** ** report_incident.py *)

Definition valid_types : list string :=
  ["policy_violation"; "suspicious_activity"; "unauthorized_access";
   "rate_limit_exceeded"; "data_exfiltration"; "configuration_error"; "other"].

Definition valid_severities : list string := ["low"; "medium"; "high"; "critical"].

(** [s in names] for a list of string literals. *)
Definition str_in (s : string) (names : list string) : bool :=
  existsb (String.eqb s) names.

(** The three assignments of the auto-suspension (lines 135-137). *)
Definition suspend_record (agent : dict) (timestamp incident_id : string) : dict :=
  let agent := dict_set agent "status" (VStr "suspended") in
  let agent := dict_set agent "suspended_at" (VStr timestamp) in
  dict_set agent "suspension_reason"
    (VStr ("Auto-suspended due to critical incident: " +:+ incident_id)).

(** [report_incident(incident_type, severity, description, agent_id,
    evidence, recommended_action)]; the value is the dict serialised as
    the tool's answer. *)
Definition report_incident (incident_type severity description agent_id
    evidence recommended_action : string) : M value :=
  io timestamp <- get_timestamp;
  io incident_id <- generate_id "inc";
  let incident_type :=
    if negb (str_in incident_type valid_types) then "other" else incident_type in
  let severity :=
    if negb (str_in severity valid_severities) then "medium" else severity in
  io evidence_data <- lift (loads_or evidence (VDict [("raw", VStr evidence)]));
  let incident :=
    VDict [("incident_id", VStr incident_id);
           ("timestamp", VStr timestamp);
           ("type", VStr incident_type);
           ("severity", VStr severity);
           ("description", VStr description);
           ("agent_id", if String.eqb agent_id "" then VNull else VStr agent_id);
           ("evidence", evidence_data);
           ("recommended_action", VStr recommended_action);
           ("status", VStr "open");
           ("resolution", VNull)] in
  io _ <- append_to_json_list Incidents incident;
  io agent_suspended <-
    (if String.eqb severity "critical" && negb (String.eqb agent_id "") then
       io agents <- load_agents;
       match agents !! agent_id with
       | Some agent =>
           io _ <- save_agents
                     (<[agent_id := suspend_record agent timestamp incident_id]> agents);
           ret true
       | None => ret false
       end
     else ret false);
  io entry_id <- generate_id "aud";
  let audit_entry :=
    VDict [("entry_id", VStr entry_id);
           ("timestamp", VStr timestamp);
           ("agent_id", VStr "guardian-system");
           ("action", VDict [("type", VStr "incident_report");
                             ("target", VStr incident_id);
                             ("parameters",
                              VDict [("incident_type", VStr incident_type);
                                     ("severity", VStr severity);
                                     ("related_agent", VStr agent_id)])]);
           ("evaluation", VDict [("allowed", VBool true);
                                 ("reason", VStr "Incident logged for investigation")])] in
  io _ <- append_to_json_list Audit_log audit_entry;
  let message := "Incident '" +:+ incident_id +:+ "' logged with severity '" +:+
                 severity +:+ "'" in
  let message :=
    if agent_suspended
    then message +:+ " - Agent '" +:+ agent_id +:+ "' has been automatically suspended"
    else message in
  ret (VDict [("incident_id", VStr incident_id);
              ("success", VBool true);
              ("message", VStr message);
              ("agent_suspended", VBool agent_suspended);
              ("severity", VStr severity);
              ("type", VStr incident_type)]).

(** ** create_policy.py *)

Definition valid_actions : list string := ["allow"; "deny"; "require_approval"].

(** [str(valid_actions)] *)
Definition valid_actions_repr : string := "['allow', 'deny', 'require_approval']".

Definition str_of_nat (i : nat) : string :=
  NilZero.string_of_uint (Nat.to_uint i).

(** [action not in valid_actions] *)
Definition invalid_action (action : value) : bool :=
  negb (existsb (eq_str action) valid_actions).

(** The loop [for i, rule in enumerate(rules)] of
    [_validate_policy_rules], from index [i] on. *)
Fixpoint validate_rules_from (i : nat) (rules : list value) : bool * string :=
  match rules with
  | [] => (true, "")
  | rule :: rules' =>
      match rule with
      | VDict rule =>
          let condition := get_default rule "condition" (VDict []) in
          if negb (truthy condition) then
            (false, "Rule " +:+ str_of_nat i +:+ " must have a 'condition' object")
          else
            let action := get_default rule "action" (VStr "deny") in
            if invalid_action action then
              (false, "Rule " +:+ str_of_nat i +:+ " has invalid action '" +:+
                      fmt action +:+ "'. Must be one of: " +:+ valid_actions_repr)
            else validate_rules_from (S i) rules'
      | _ => (false, "Rule " +:+ str_of_nat i +:+ " must be an object")
      end
  end.

(** [_validate_policy_rules(rules)] *)
Definition _validate_policy_rules (rules : value) : outcome (bool * string) :=
  if negb (truthy rules) then Ret (false, "Policy must have at least one rule")
  else
    do rules <- py_iter rules;
    Ret (validate_rules_from 0 rules).

(** The search [for i, p in enumerate(policies): if p.get("id") ==
    policy_id: ...; break], from index [i] on. *)
Fixpoint find_policy_from (i : nat) (policies : list value) (policy_id : string)
  : outcome (option nat) :=
  match policies with
  | [] => Ret None
  | p :: policies' =>
      do p <- as_dict p;
      if eq_str (get_none p "id") policy_id then Ret (Some i)
      else find_policy_from (S i) policies' policy_id
  end.

(** The sort key [p.get("priority", 0)] of each policy. *)
Fixpoint priority_keys (policies : list value) : outcome (list value) :=
  match policies with
  | [] => Ret []
  | p :: policies' =>
      do d <- as_dict p;
      do ks <- priority_keys policies';
      Ret (get_default d "priority" (VNum 0) :: ks)
  end.

(** A key as an integer; the order Python gives other keys is not
    modelled. *)
Definition int_key (k : value) : outcome Z :=
  match k with
  | VNum n => Ret n
  | VBool b => Ret (if b then 1 else 0)
  | _ => Unmodelled
  end.

Fixpoint int_keys (ks : list value) : outcome (list Z) :=
  match ks with
  | [] => Ret []
  | k :: ks' =>
      do n <- int_key k;
      do ns <- int_keys ks';
      Ret (n :: ns)
  end.

(** Insertion behind every entry whose key is not smaller: the order of
    equal keys is kept, as [list.sort(reverse=True)] keeps it. *)
Fixpoint insert_desc (x : Z * value) (sorted : list (Z * value)) : list (Z * value) :=
  match sorted with
  | [] => [x]
  | y :: sorted' =>
      if fst y <? fst x then x :: y :: sorted'
      else y :: insert_desc x sorted'
  end.

Definition sort_desc (l : list (Z * value)) : list (Z * value) :=
  fold_left (fun sorted x => insert_desc x sorted) l [].

(** [policies.sort(key=lambda p: p.get("priority", 0), reverse=True)] *)
Definition sort_by_priority (policies : list value) : outcome (list value) :=
  do ks <- priority_keys policies;
  do ns <- int_keys ks;
  Ret (map snd (sort_desc (zip ns policies))).

(** [len(x)] *)
Definition py_len (x : value) : outcome Z :=
  match x with
  | VList l => Ret (Z.of_nat (length l))
  | VStr s => Ret (Z.of_nat (String.length s))
  | VDict d => Ret (Z.of_nat (length d))
  | _ => Raise TypeError
  end.

Definition str_of_Z (n : Z) : string :=
  NilZero.string_of_int (Z.to_int n).

(** [json.loads(rules) if rules else []] *)
Definition decoded_rules (rules : string) : loads :=
  if String.eqb rules "" then Decoded (VList []) else json_loads rules.

Definition failure (policy_id message : string) : value :=
  VDict [("success", VBool false);
         ("policy_id", VStr policy_id);
         ("message", VStr message)].

(** [create_policy(policy_id, name, description, rules, priority,
    enabled)]; the value is the dict serialised as the tool's answer. *)
Definition create_policy (policy_id name description rules : string)
    (priority : Z) (enabled : bool) : M value :=
  io timestamp <- get_timestamp;
  match decoded_rules rules with
  | Raised e => lift (Raise e)
  | JSONDecodeError e => ret (failure policy_id ("Invalid rules JSON: " +:+ e))
  | Decoded rules_list =>
  io '(is_valid, error_msg) <- lift (_validate_policy_rules rules_list);
  if negb is_valid then
    ret (failure policy_id ("Invalid policy rules: " +:+ error_msg))
  else
  io policies <- load_policies;
  io existing_idx <- lift (find_policy_from 0 policies policy_id);
  let is_update := match existing_idx with Some _ => true | None => false end in
  let created_at :=
    match existing_idx with
    | Some i =>
        match policies !! i with
        | Some (VDict p) => get_default p "created_at" (VStr timestamp)
        | _ => VStr timestamp
        end
    | None => VStr timestamp
    end in
  let policy_record :=
    VDict [("id", VStr policy_id);
           ("name", VStr name);
           ("description", VStr description);
           ("rules", rules_list);
           ("priority", VNum priority);
           ("enabled", VBool enabled);
           ("created_at", created_at);
           ("updated_at", VStr timestamp)] in
  let policies :=
    match existing_idx with
    | Some i => <[i := policy_record]> policies
    | None => policies ++ [policy_record]
    end in
  io policies <- lift (sort_by_priority policies);
  io _ <- save_policies policies;
  io entry_id <- generate_id "aud";
  io rules_count <- lift (py_len rules_list);
  let audit_entry :=
    VDict [("entry_id", VStr entry_id);
           ("timestamp", VStr timestamp);
           ("agent_id", VStr "guardian-system");
           ("action", VDict [("type", VStr "policy_management");
                             ("target", VStr policy_id);
                             ("parameters",
                              VDict [("operation",
                                      VStr (if is_update then "update" else "create"));
                                     ("rules_count", VNum rules_count);
                                     ("enabled", VBool enabled)])]);
           ("evaluation", VDict [("allowed", VBool true);
                                 ("reason", VStr "Policy management completed")])] in
  io _ <- append_to_json_list Audit_log audit_entry;
  ret (VDict [("success", VBool true);
              ("policy_id", VStr policy_id);
              ("message",
               VStr ("Policy '" +:+ name +:+ "' (" +:+ policy_id +:+ ") " +:+
                     (if is_update then "updated" else "created") +:+
                     " successfully with " +:+ str_of_Z rules_count +:+ " rules"))])
  end.


(** ** register_agent.py *)

Definition valid_trust_levels : list string := ["low"; "medium"; "high"; "admin"].

(** [str(valid_trust_levels)] *)
Definition valid_trust_levels_repr : string := "['low', 'medium', 'high', 'admin']".

(** [json.loads(text) if text else []], and [[]] for a text that does
    not decode; any exception other than [json.JSONDecodeError] leaves
    the tool. *)
Definition loads_list (text : string) : outcome value :=
  if String.eqb text "" then Ret (VList [])
  else match json_loads text with
       | Decoded v => Ret v
       | JSONDecodeError _ => Ret (VList [])
       | Raised e => Raise e
       end.

Definition agent_record (agent_id name description trust_level : string)
    (allowed_list denied_list meta registered_at : value) (timestamp : string) : dict :=
  [("agent_id", VStr agent_id);
   ("name", VStr name);
   ("description", VStr description);
   ("trust_level", VStr trust_level);
   ("allowed_tools", allowed_list);
   ("denied_tools", denied_list);
   ("metadata", meta);
   ("status", VStr "active");
   ("registered_at", registered_at);
   ("updated_at", VStr timestamp);
   ("auto_registered", VBool false)].

(** The list [warnings] that the tool builds (lines 152-156). *)
Definition registration_warnings (trust_level : string)
    (allowed_list denied_list : value) : list value :=
  (if String.eqb trust_level "admin"
   then [VStr "Agent registered with ADMIN trust level - has full access"]
   else []) ++
  (if negb (truthy allowed_list) && negb (truthy denied_list)
   then [VStr "No tool restrictions defined - agent can use any tool per policies"]
   else []).

(** [register_agent(agent_id, name, description, trust_level,
    allowed_tools, denied_tools, metadata)]; the value is the dict
    serialised as the tool's answer. *)
Definition register_agent (agent_id name description trust_level
    allowed_tools denied_tools metadata : string) : M value :=
  io timestamp <- get_timestamp;
  io allowed_list <- lift (loads_list allowed_tools);
  io denied_list <- lift (loads_list denied_tools);
  io meta <- lift (loads_or metadata (VDict []));
  if negb (str_in trust_level valid_trust_levels) then
    ret (VDict [("success", VBool false);
                ("agent_id", VStr agent_id);
                ("message", VStr ("Invalid trust level '" +:+ trust_level +:+
                                  "'. Must be one of: " +:+ valid_trust_levels_repr));
                ("warnings", VList [])])
  else
  io agents <- load_agents;
  let is_update := match agents !! agent_id with Some _ => true | None => false end in
  let record :=
    agent_record agent_id name description trust_level allowed_list denied_list meta
      (get_default (default [] (agents !! agent_id)) "registered_at" (VStr timestamp))
      timestamp in
  io _ <- save_agents (<[agent_id := record]> agents);
  io entry_id <- generate_id "aud";
  let audit_entry :=
    VDict [("entry_id", VStr entry_id);
           ("timestamp", VStr timestamp);
           ("agent_id", VStr "guardian-system");
           ("action", VDict [("type", VStr "agent_registration");
                             ("target", VStr agent_id);
                             ("parameters",
                              VDict [("trust_level", VStr trust_level);
                                     ("is_update", VBool is_update)])]);
           ("evaluation", VDict [("allowed", VBool true);
                                 ("reason", VStr "Agent registration completed")])] in
  io _ <- append_to_json_list Audit_log audit_entry;
  ret (VDict [("success", VBool true);
              ("agent_id", VStr agent_id);
              ("message",
               VStr ("Agent '" +:+ name +:+ "' (" +:+ agent_id +:+ ") " +:+
                     (if is_update then "updated" else "registered") +:+
                     " successfully with trust level '" +:+ trust_level +:+ "'"));
              ("warnings", VList (registration_warnings trust_level
                                    allowed_list denied_list))]).

(** ** get_audit_log.py: the filter *)

(** What the test [datetime.fromisoformat(text.replace("Z", "+00:00")) <
    cutoff] of [_filter_entries] comes to: the time is earlier than the
    cutoff or not, the text is no ISO time ([ValueError]), or it is a
    time without offset, which Python refuses to compare with the
    cutoff ([TypeError]). *)
Inductive time_test := Earlier | Not_earlier | Not_a_time | Not_comparable.

(** The cutoff is a [datetime] of Python that the filter uses in this
    test only: it is modelled by what the test gives for each text. *)
Definition cutoff_time : Type := string → time_test.

(** An optional text that is given: neither [None] nor empty. *)
Definition given (o : option string) : option string :=
  match o with
  | Some s => if String.eqb s "" then None else Some s
  | None => None
  end.

(** The time filter of the loop (lines 77-85): is the entry left out? *)
Definition too_old (entry : dict) (cutoff : option cutoff_time) : outcome bool :=
  match cutoff with
  | None => Ret false
  | Some c =>
      match get_default entry "timestamp" (VStr "") with
      | VStr timestamp_str =>
          match c timestamp_str with
          | Earlier => Ret true
          | Not_earlier => Ret false
          | Not_a_time => Ret false
          | Not_comparable => Raise TypeError
          end
      | _ => Ret false   (* AttributeError on [replace], passed over *)
      end
  end.

(** The body of the loop of [_filter_entries]: is the entry appended? *)
Definition keep_entry (entry : value) (agent_id action_type : option string)
    (cutoff : option cutoff_time) (status : option string) : outcome bool :=
  do skip <-
    match given agent_id with
    | Some a => do e <- as_dict entry; Ret (negb (eq_str (get_none e "agent_id") a))
    | None => Ret false
    end;
  if skip then Ret false else
  do e <- as_dict entry;
  let action := get_default e "action" (VDict []) in
  do skip <-
    match given action_type with
    | Some t => do a <- as_dict action; Ret (negb (eq_str (get_none a "type") t))
    | None => Ret false
    end;
  if skip then Ret false else
  do old <- too_old e cutoff;
  if old then Ret false else
  match given status with
  | Some s =>
      do evaluation <- as_dict (get_default e "evaluation" (VDict []));
      let entry_allowed := truthy (get_default evaluation "allowed" (VBool true)) in
      if String.eqb s "denied" && entry_allowed then Ret false
      else if String.eqb s "allowed" && negb entry_allowed then Ret false
      else Ret true
  | None => Ret true
  end.

(** [_filter_entries(entries, agent_id, action_type, cutoff, status)] *)
Fixpoint _filter_entries (entries : list value) (agent_id action_type : option string)
    (cutoff : option cutoff_time) (status : option string) : outcome (list value) :=
  match entries with
  | [] => Ret []
  | entry :: entries' =>
      do keep <- keep_entry entry agent_id action_type cutoff status;
      do filtered <- _filter_entries entries' agent_id action_type cutoff status;
      Ret (if keep then entry :: filtered else filtered)
  end.

(** ** The pattern matcher of the specification

    Section 4.1 in its own words: [*] stands for zero or more arbitrary
    characters, every other character for itself, case is ignored and
    the whole value has to be consumed. *)

Fixpoint any_then (k : string → bool) (s : string) : bool :=
  k s ||
  match s with
  | String _ s' => any_then k s'
  | EmptyString => false
  end.

Fixpoint glob (pattern text : string) : bool :=
  match pattern with
  | EmptyString => String.eqb text ""
  | String c pattern' =>
      if is_char c "*" then any_then (glob pattern') text
      else match text with
           | String d text' => ascii_eqb (lower c) (lower d) && glob pattern' text'
           | EmptyString => false
           end
  end.

Definition matches_spec (pattern text : string) : bool :=
  String.eqb pattern "*" || glob pattern text.

(** ** Notions used by the statements *)

(** A decision that refuses the action. *)
Definition is_denial (v : value) : Prop :=
  ∃ d, v = VDict d ∧ dict_get d "allowed" = Some (VBool false).

(** The agent directory that a call of [validate_action] evaluates
    against: the stored one, with the caller registered if unknown. *)
Definition resolved_agents (w : world) (agent_id : string) : gmap string dict :=
  match agents_json w !! agent_id with
  | Some _ => agents_json w
  | None =>
      <[agent_id := auto_registered_agent agent_id (clock w (clock_pos w))]>
        (agents_json w)
  end.

(** The test [agent.get("status") == "suspended"] of [validate_action]. *)
Definition is_suspended (agents : gmap string dict) (agent_id : string) : bool :=
  eq_str (get_none (default [] (agents !! agent_id)) "status") "suspended".

(** The exception, if there is one, with which [json.loads(text) if
    text else ...] leaves the tool: any that [json.loads] raises on a
    non-empty text other than [json.JSONDecodeError]. *)
Definition loads_raises (text : string) : option exn :=
  if String.eqb text "" then None
  else match json_loads text with
       | Raised e => Some e
       | _ => None
       end.

(** The three JSON texts of a registration pass [json.loads]. *)
Definition registration_texts_pass (allowed_tools denied_tools metadata : string)
  : Prop :=
  loads_raises allowed_tools = None ∧ loads_raises denied_tools = None ∧
  loads_raises metadata = None.

(** The identifiers drawn by a call that starts in [w]. *)
Definition drawn_id (prefix : string) (w : world) (n : nat) : string :=
  prefix +:+ "_" +:+ uuid_hex w (n + uuid_pos w).

(** The three ways in which the claims call a rule invalid. *)
Definition empty_condition (rule : value) : Prop :=
  ∃ d, rule = VDict d ∧ get_default d "condition" (VDict []) = VDict [].

Definition unknown_action (rule : value) : Prop :=
  ∃ d a, rule = VDict d ∧ dict_get d "action" = Some a ∧
         ∀ s, s ∈ valid_actions → a ≠ VStr s.

Definition invalid_rule_set (rules : list value) : Prop :=
  rules = [] ∨ ∃ r, r ∈ rules ∧ (empty_condition r ∨ unknown_action r).

(** The policy of the test suite and its agents. *)
Definition test_policy : value :=
  VDict [("id", VStr "test-policy");
         ("name", VStr "Test Policy");
         ("rules", VList
            [VDict [("condition", VDict [("tool_pattern", VStr "delete_*");
                                         ("trust_level_below", VStr "admin")]);
                    ("action", VStr "deny");
                    ("message", VStr "Delete requires admin")];
             VDict [("condition", VDict [("tool_pattern", VStr "read_*");
                                         ("trust_level_at_least", VStr "low")]);
                    ("action", VStr "allow");
                    ("message", VStr "Read allowed")]]);
         ("enabled", VBool true);
         ("priority", VNum 100)].

Definition test_agent (agent_id name trust_level status : string) : dict :=
  [("agent_id", VStr agent_id); ("name", VStr name);
   ("trust_level", VStr trust_level); ("status", VStr status);
   ("allowed_tools", VList []); ("denied_tools", VList [])].

Definition test_agents : gmap string dict :=
  <["test-low" := test_agent "test-low" "Low Trust" "low" "active"]>
  (<["test-admin" := test_agent "test-admin" "Admin" "admin" "active"]>
  (<["test-suspended" := test_agent "test-suspended" "Suspended" "medium" "suspended"]> ∅)).

(** The patterns and values on which no feature of [re] other than the
    one the matcher asks for comes into play. *)
Definition plain (c : ascii) : bool :=
  negb (is_char c ".") && negb (is_char c "^") && negb (is_char c "$") &&
  negb (beyond_fragment c) &&
  match repeat_of c with None => true | Some _ => false end.

Fixpoint glob_pattern (p : string) : bool :=
  match p with
  | EmptyString => true
  | String c p' => if is_char c "*" then glob_pattern p' else plain c && glob_pattern p'
  end.

Fixpoint no_newline (v : string) : bool :=
  match v with
  | EmptyString => true
  | String c v' => negb (ascii_eqb c newline) && no_newline v'
  end.

(** The items that [re] makes of such a pattern. *)
Fixpoint items_of (p : string) : list item :=
  match p with
  | EmptyString => []
  | String c p' =>
      (if is_char c "*" then Chars AnyChar Star else Chars (Lit c) Once)
      :: items_of p'
  end.

Definition nl : string := String newline EmptyString.

(** A store with the agents and the policy of the test suite, and one
    whose policy asks for approval. *)
Definition test_world : world :=
  World test_agents [test_policy] [] []
        (λ _, "2026-01-01T00:00:00+00:00") 0 (λ _, "0123456789ab") 0.

Definition approval_policy : value :=
  VDict [("id", VStr "deploy-gate");
         ("rules", VList
            [VDict [("condition", VDict [("tool_pattern", VStr "deploy_*");
                                         ("trust_level_below", VStr "high")]);
                    ("action", VStr "require_approval");
                    ("message", VStr "Deployment needs sign-off")]]);
         ("enabled", VBool true);
         ("priority", VNum 50)].

Definition approval_world : world :=
  World test_agents [approval_policy] [] []
        (λ _, "2026-01-01T00:00:00+00:00") 0 (λ _, "0123456789ab") 0.

(** Stand-ins for [str] and [json.loads] where an example needs them. *)
Definition sample_repr (v : value) : string :=
  match v with
  | VNull => "None"
  | VBool true => "True"
  | VBool false => "False"
  | _ => "..."
  end.

Definition sample_loads (text : string) : loads :=
  if String.eqb text "[{}]" then Decoded (VList [VDict []])
  else if String.eqb text "{}" then Decoded (VDict [])
  else JSONDecodeError "Expecting value".





(** ** Notions for the properties beyond the claims *)

(** The answer that [validate_action] computes before it records it. *)
Definition decision_of (action_type target agent_id : string) (params : value)
    (w : world) : outcome dict :=
  if is_suspended (resolved_agents w agent_id) agent_id then
    Ret (suspended_result (drawn_id "act" w 0) agent_id)
  else
    do decision <-
      _evaluate_policies action_type target agent_id params
        (resolved_agents w agent_id) (policies_json w);
    do decision <- as_dict decision;
    Ret (evaluated_result (drawn_id "act" w 0) decision).

(** The audit entry of an answer. *)
Definition audit_entry_of (action_type target agent_id : string) (params : value)
    (context : string) (w : world) (result : dict) : value :=
  VDict [("entry_id", VStr (drawn_id "aud" w 1));
         ("action_id", VStr (drawn_id "act" w 0));
         ("timestamp", VStr (clock w (clock_pos w)));
         ("agent_id", VStr agent_id);
         ("action", VDict [("type", VStr action_type);
                           ("target", VStr target);
                           ("parameters", params);
                           ("context", VStr context)]);
         ("evaluation",
          VDict [("allowed", get_none result "allowed");
                 ("require_approval",
                  get_default result "require_approval" (VBool false));
                 ("reason", get_none result "reason")])].

(** The test [not result["allowed"]]. *)
Definition refused (result : dict) : bool := negb (truthy (get_none result "allowed")).

(** Both logs within the retention bound. *)
Definition logs_bounded (w : world) : Prop :=
  (length (audit_log_json w) ≤ max_items)%nat ∧
  (length (incidents_json w) ≤ max_items)%nat.

(** The store that a call of [validate_action] leaves when it answers
    [result], and the one it leaves when the evaluation raises. *)
Definition world_after_answer (action_type target agent_id : string) (params : value)
    (context : string) (w : world) (result : dict) : world :=
  World (resolved_agents w agent_id) (policies_json w)
        (append_capped (audit_log_json w)
           (audit_entry_of action_type target agent_id params context w result))
        (if refused result then
           append_capped (incidents_json w)
             (violation_incident (drawn_id "inc" w 2) (clock w (clock_pos w))
                agent_id (drawn_id "act" w 0) action_type target
                (get_none result "reason"))
         else incidents_json w)
        (clock w) (S (clock_pos w)) (uuid_hex w)
        (if refused result then 3 + uuid_pos w else 2 + uuid_pos w)%nat.

Definition world_after_abort (agent_id : string) (w : world) : world :=
  World (resolved_agents w agent_id) (policies_json w)
        (audit_log_json w) (incidents_json w)
        (clock w) (S (clock_pos w)) (uuid_hex w) (S (uuid_pos w)).

(** The test [policy.get("enabled", True)] of the evaluator, on a policy
    that is a dict. *)
Definition policy_enabled (policy : value) : bool :=
  match policy with
  | VDict d => truthy (get_default d "enabled" (VBool true))
  | _ => true
  end.

(** The agent file after [report_incident]: the named agent, if its id
    is not empty and the store knows it, is suspended by a critical
    incident. *)
Definition agents_after_incident (severity agent_id : string) (w : world)
  : gmap string dict :=
  if String.eqb severity "critical" && negb (String.eqb agent_id "") then
    match agents_json w !! agent_id with
    | Some agent =>
        <[agent_id := suspend_record agent (clock w (clock_pos w))
                        (drawn_id "inc" w 0)]> (agents_json w)
    | None => agents_json w
    end
  else agents_json w.

(** A rule that [_validate_policy_rules] accepts: an object with a
    condition that is not empty and an action among the valid ones (or
    none, which stands for [deny]). *)
Definition rule_ok (rule : value) : bool :=
  match rule with
  | VDict d =>
      truthy (get_default d "condition" (VDict [])) &&
      negb (invalid_action (get_default d "action" (VStr "deny")))
  | _ => false
  end.

(** The priority under which [create_policy] sorts a stored policy. *)
Definition priority_of (policy : value) : Z :=
  match policy with
  | VDict d =>
      match get_default d "priority" (VNum 0) with
      | VNum n => n
      | VBool true => 1
      | _ => 0
      end
  | _ => 0
  end.


(** Descending order of priority. *)
Definition by_priority (policies : list value) : Prop :=
  StronglySorted (λ p q, priority_of q ≤ priority_of p) policies.




(** Descending order of the keys of a keyed list. *)
Definition desc_pairs (l : list (Z * value)) : Prop :=
  StronglySorted (λ a b, fst b ≤ fst a) l.

(** The policies of one priority, in the order of the list, and the
    entries of one key in a keyed list. *)
Definition with_priority (k : Z) (policies : list value) : list value :=
  filter (λ p, priority_of p = k) policies.

Definition with_key (k : Z) (l : list (Z * value)) : list (Z * value) :=
  filter (λ e, fst e = k) l.


(** Text made of characters that mean nothing to [re], and the test
    that a value begins with a text, case ignored. *)
Fixpoint all_plain (s : string) : bool :=
  match s with
  | EmptyString => true
  | String c s' => negb (is_char c "*") && plain c && all_plain s'
  end.

Fixpoint starts_with (prefix text : string) : bool :=
  match prefix with
  | EmptyString => true
  | String c prefix' =>
      match text with
      | String d text' => ascii_eqb (lower c) (lower d) && starts_with prefix' text'
      | EmptyString => false
      end
  end.

(** Sample data for the properties beyond the claims: an agent with
    tool lists, a decoder that answers one document for every text, a
    rule set and two audit entries. *)
Definition reader_agent : dict :=
  [("agent_id", VStr "reader"); ("trust_level", VStr "medium");
   ("allowed_tools", VList [VStr "read_*"]);
   ("denied_tools", VList [VStr "read_secret*"; VStr "read_key"])].

Definition reader_agents : gmap string dict := {["reader" := reader_agent]}.


Definition read_rule : dict :=
  [("condition", VDict [("tool_pattern", VStr "read_*");
                        ("trust_level_at_least", VStr "low")]);
   ("action", VStr "allow");
   ("message", VStr "Read allowed")].


(** A policy of the priority of the test policy. *)
Definition reviewed_policy : value :=
  VDict [("id", VStr "reviewed"); ("rules", VList []); ("priority", VNum 100)].

Definition audit_sample (agent_id : string) (allowed : bool) : value :=
  VDict [("agent_id", VStr agent_id);
         ("action", VDict [("type", VStr "tool_call")]);
         ("evaluation", VDict [("allowed", VBool allowed)])].

(** * Properties *)

(** ** Basic facts about outcomes and dicts *)

Lemma obind_ret {A B} (m : outcome A) (k : A → outcome B) b :
  obind m k = Ret b → ∃ a, m = Ret a ∧ k a = Ret b.
Proof. destruct m; simpl; intros; try discriminate; eauto. Qed.

Ltac inv_ret :=
  repeat match goal with
  | H : obind _ _ = Ret _ |- _ =>
      apply obind_ret in H; destruct H as (? & ? & H)
  | H : Ret _ = Ret _ |- _ => injection H as H
  | H : (if ?b then _ else _) = Ret _ |- _ => destruct b eqn:?
  | H : (if ?b then _ else _) = Some _ |- _ => destruct b eqn:?
  | H : Some _ = Some _ |- _ => injection H as H
  | H : None = Some _ |- _ => discriminate H
  end.

Lemma get_default_some d k v default :
  dict_get d k = Some v → get_default d k default = v.
Proof. unfold get_default. by intros ->. Qed.

Lemma get_default_none d k default :
  dict_get d k = None → get_default d k default = default.
Proof. unfold get_default. by intros ->. Qed.

Lemma dict_get_set_eq d k v : dict_get (dict_set d k v) k = Some v.
Proof.
  induction d as [|[k' v'] d IH]; simpl.
  - by rewrite String.eqb_refl.
  - destruct (String.eqb k' k) eqn:E; simpl.
    + by rewrite String.eqb_refl.
    + by rewrite E.
Qed.

Lemma dict_get_set_ne d k k' v : k ≠ k' → dict_get (dict_set d k v) k' = dict_get d k'.
Proof.
  intros Hne. induction d as [|[k0 v0] d IH]; simpl.
  - destruct (String.eqb k k') eqn:E; [|done].
    by apply String.eqb_eq in E.
  - destruct (String.eqb k0 k) eqn:E; simpl.
    + apply String.eqb_eq in E as ->.
      destruct (String.eqb k k') eqn:E'; [|done].
      by apply String.eqb_eq in E'.
    + by rewrite IH.
Qed.

Lemma loads_or_returns text fallback :
  loads_raises text = None → ∃ v, loads_or text fallback = Ret v.
Proof.
  unfold loads_raises, loads_or. destruct (String.eqb text ""); [by eexists|].
  destruct (json_loads text); intros; try discriminate; by eexists.
Qed.

Lemma loads_or_raises text fallback e :
  loads_raises text = Some e → loads_or text fallback = Raise e.
Proof.
  unfold loads_raises, loads_or. destruct (String.eqb text ""); [discriminate|].
  destruct (json_loads text); intros; try discriminate. congruence.
Qed.

Lemma loads_list_returns text :
  loads_raises text = None → ∃ v, loads_list text = Ret v.
Proof.
  unfold loads_raises, loads_list. destruct (String.eqb text ""); [by eexists|].
  destruct (json_loads text); intros; try discriminate; by eexists.
Qed.

Lemma loads_list_raises text e :
  loads_raises text = Some e → loads_list text = Raise e.
Proof.
  unfold loads_raises, loads_list. destruct (String.eqb text ""); [discriminate|].
  destruct (json_loads text); intros; try discriminate. congruence.
Qed.

Lemma loads_or_cases text fallback :
  (∃ v, loads_raises text = None ∧ loads_or text fallback = Ret v) ∨
  (∃ e, loads_raises text = Some e ∧ loads_or text fallback = Raise e).
Proof.
  destruct (loads_raises text) as [e|] eqn:E.
  - right. exists e. eauto using loads_or_raises.
  - left. destruct (loads_or_returns text fallback E) as (v & Hv). eauto.
Qed.

Lemma last_append_capped data item : last (append_capped data item) = Some item.
Proof.
  unfold append_capped. case_match eqn:Hlt.
  - rewrite length_app in *. simpl in *.
    apply Nat.ltb_lt in Hlt. unfold max_items in *.
    replace (length data + 1 - 1000)%nat with (length data - 999)%nat by lia.
    rewrite drop_app_le by lia. apply last_snoc.
  - apply last_snoc.
Qed.

Lemma append_capped_room data item :
  (length data < max_items)%nat → append_capped data item = data ++ [item].
Proof.
  intros Hlt. unfold append_capped. cbv zeta.
  destruct (Nat.ltb max_items (length (data ++ [item]))) eqn:E; [|done].
  apply Nat.ltb_lt in E. rewrite length_app in E. cbn [length] in E.
  unfold max_items in *. lia.
Qed.

Lemma score_of_pos name : 1 ≤ score_of name.
Proof.
  unfold score_of. destruct (assoc name trust_levels) as [n|] eqn:E; simpl; [|lia].
  unfold trust_levels in E. cbn [assoc] in E.
  repeat match type of E with
  | (if ?b then _ else _) = _ => destruct b; [injection E as <-; lia|]
  end.
  discriminate E.
Qed.

(** ** The pattern matcher *)

(** C5. The matcher does not return for every pattern: on the pattern
    [?] the regular expression [^?$] is rejected by [re] (nothing to
    repeat) and the exception leaves [_match_pattern], whatever the
    value. *)
Theorem match_pattern_raises (text : string) :
  _match_pattern (VStr "?") text = Raise ReError.
Proof. reflexivity. Qed.

(** C6. The matcher departs from the glob of the specification: the
    character [.] of a pattern is not taken literally, a value that ends
    in a newline matches the pattern without it, and [*] does not run
    over a newline. *)
Theorem match_pattern_not_glob :
  (_match_pattern (VStr "a.c") "abc" = Ret true ∧ matches_spec "a.c" "abc" = false) ∧
  (_match_pattern (VStr "abc") ("abc" +:+ nl) = Ret true ∧
   matches_spec "abc" ("abc" +:+ nl) = false) ∧
  (_match_pattern (VStr "a*") ("a" +:+ nl +:+ "b") = Ret false ∧
   matches_spec "a*" ("a" +:+ nl +:+ "b") = true).
Proof. repeat split; reflexivity. Qed.

(** ** Decisions of the evaluator *)

Lemma check_trust_at_least_denies policy rule condition tl score target v :
  check_trust_at_least policy rule condition tl score target = Ret (Some v) →
  is_denial v.
Proof.
  unfold check_trust_at_least. intros H. inv_ret; subst.
  eexists; split; reflexivity.
Qed.

Lemma check_trust_below_denies policy rule condition score v :
  check_trust_below policy rule condition score = Ret (Some v) →
  is_denial v.
Proof.
  unfold check_trust_below. intros H. inv_ret; subst;
  eexists; split; reflexivity.
Qed.

Lemma eval_rule_denies policy rule action_type target tl score v :
  eval_rule policy rule action_type target tl score = Ret (Some v) →
  is_denial v.
Proof.
  unfold eval_rule. intros H. inv_ret.
  match goal with H : match ?r with _ => _ end = _ |- _ => destruct r eqn:E end.
  - inv_ret. subst. eauto using check_trust_at_least_denies.
  - eauto using check_trust_below_denies.
Qed.

Lemma eval_rules_denies policy rules action_type target tl score v :
  eval_rules policy rules action_type target tl score = Ret (Some v) →
  is_denial v.
Proof.
  induction rules as [|rule rules IH]; simpl; intros H; [discriminate|].
  apply obind_ret in H as ([d|] & Hrule & H).
  - injection H as [= ->]. eauto using eval_rule_denies.
  - auto.
Qed.

Lemma eval_policies_denies policies action_type target tl score v :
  eval_policies policies action_type target tl score = Ret (Some v) →
  is_denial v.
Proof.
  induction policies as [|policy policies IH]; simpl; intros H; [discriminate|].
  apply obind_ret in H as ([d|] & Hpol & H).
  - injection H as [= ->]. unfold eval_policy in Hpol. inv_ret.
    eauto using eval_rules_denies.
  - auto.
Qed.

Lemma check_denied_tools_denies denied_tools target agent_id v :
  check_denied_tools denied_tools target agent_id = Ret (Some v) → is_denial v.
Proof.
  unfold check_denied_tools. intros H. inv_ret; subst.
  eexists; split; reflexivity.
Qed.

Lemma check_allowed_tools_denies allowed_tools target agent_id v :
  check_allowed_tools allowed_tools target agent_id = Ret (Some v) → is_denial v.
Proof.
  unfold check_allowed_tools. intros H. inv_ret; subst.
  eexists; split; reflexivity.
Qed.

(** Every decision is a refusal or the default permission. *)
Lemma evaluate_policies_shape action_type target agent_id parameters agents policies v :
  _evaluate_policies action_type target agent_id parameters agents policies = Ret v →
  is_denial v ∨ v = default_allow.
Proof.
  unfold _evaluate_policies. intros H.
  apply obind_ret in H as (score & _ & H).
  apply obind_ret in H as ([d|] & H1 & H).
  { injection H as <-. eauto using check_denied_tools_denies. }
  apply obind_ret in H as ([d|] & H2 & H).
  { injection H as <-. eauto using check_allowed_tools_denies. }
  apply obind_ret in H as ([d|] & H3 & H); injection H as <-;
    eauto using eval_policies_denies.
Qed.

(** The agent-level deny list decides before the allow list and the
    policies are looked at: once its scan finds a match, the decision
    is the refusal, whatever they hold. *)
Lemma denied_tools_precedence action_type target agent_id parameters
    (agents : gmap string dict) policies agent (trust : string) patterns :
  agents !! agent_id = Some agent →
  get_default agent "trust_level" (VStr "low") = VStr trust →
  dict_get agent "denied_tools" = Some (VList patterns) →
  any_match patterns target = Ret true →
  _evaluate_policies action_type target agent_id parameters agents policies =
    Ret (deny_agent_denied_tools target agent_id).
Proof.
  intros Hag Htl Hden Hscan. unfold _evaluate_policies.
  rewrite Hag. cbn [default from_option id]. rewrite Htl.
  rewrite (get_default_some _ _ _ _ Hden). cbn [trust_levels_get obind].
  unfold check_denied_tools.
  destruct patterns as [|p ps]; [discriminate|].
  cbn [truthy py_iter obind]. rewrite Hscan. reflexivity.
Qed.

(** C2. A target that a pattern of the deny list matches is not always
    refused.  The scan of the list stops at an earlier pattern that [re]
    rejects, and the call ends in the exception without a decision; and
    a denied name in which a character means something to [re] is not
    matched by itself, so that the action is permitted by default. *)
Theorem denied_tool_not_denied :
  let agent denied :=
    [("agent_id", VStr "a1"); ("trust_level", VStr "low");
     ("allowed_tools", VList []); ("denied_tools", VList denied);
     ("status", VStr "active")] in
  let w denied :=
    World {["a1" := agent denied]} [] [] [] (λ _, "t") 0 (λ _, "0") 0 in
  (_match_pattern (VStr "drop_table") "drop_table" = Ret true ∧
   _evaluate_policies "tool_call" "drop_table" "a1" (VDict [])
     (agents_json (w [VStr "?"; VStr "drop_table"])) [] = Raise ReError ∧
   fst (validate_action "tool_call" "drop_table" "a1" "" ""
          (w [VStr "?"; VStr "drop_table"])) = Raise ReError) ∧
  (matches_spec "c+x" "c+x" = true ∧
   _evaluate_policies "tool_call" "c+x" "a1" (VDict [])
     (agents_json (w [VStr "c+x"])) [] = Ret default_allow).
Proof. repeat split; vm_compute; reflexivity. Qed.

(** ** validate_action *)

(** A call whose parameters text makes [json.loads] raise ends in that
    exception on its first line: nothing is drawn, read or written. *)
Lemma validate_action_raises
    (action_type target agent_id parameters context : string) (w : world) e :
  loads_raises parameters = Some e →
  validate_action action_type target agent_id parameters context w = (Raise e, w).
Proof.
  intros He. unfold validate_action, bind at 1, lift.
  by rewrite (loads_or_raises _ _ _ He).
Qed.


(** The run of [validate_action] for an agent that is not suspended:
    the outcome is that of the evaluator against the resolved
    directory, which is what the agent file holds afterwards; a refusal
    adds its incident. *)
Lemma validate_action_active
    (action_type target agent_id parameters context : string) (w : world)
    (params : value) :
  loads_or parameters (VDict []) = Ret params →
  is_suspended (resolved_agents w agent_id) agent_id = false →
  let action_id := drawn_id "act" w 0 in
  let evaluation :=
    _evaluate_policies action_type target agent_id params
      (resolved_agents w agent_id) (policies_json w) in
  ∃ w',
    validate_action action_type target agent_id parameters context w =
      (do decision <- evaluation;
       do decision <- as_dict decision;
       Ret (VDict (evaluated_result action_id decision)), w') ∧
    agents_json w' = resolved_agents w agent_id ∧
    policies_json w' = policies_json w ∧
    ∀ d, evaluation = Ret (VDict d) →
      incidents_json w' =
        if truthy (get_default d "allowed" (VBool false)) then incidents_json w
        else append_capped (incidents_json w)
               (violation_incident (drawn_id "inc" w 2) (clock w (clock_pos w))
                  agent_id action_id action_type target
                  (get_default d "reason" (VStr ""))).
Proof.
  intros Hparams Hsusp action_id evaluation.
  assert (∃ w1, validate_action action_type target agent_id parameters context w =
    (io result <-
       (io eval_result <- lift evaluation;
        io eval_result <- lift (as_dict eval_result);
        ret (evaluated_result action_id eval_result));
     io entry_id <- generate_id "aud";
     io _ <- append_to_json_list Audit_log
       (VDict [("entry_id", VStr entry_id);
               ("action_id", VStr action_id);
               ("timestamp", VStr (clock w (clock_pos w)));
               ("agent_id", VStr agent_id);
               ("action", VDict [("type", VStr action_type);
                                 ("target", VStr target);
                                 ("parameters", params);
                                 ("context", VStr context)]);
               ("evaluation",
                VDict [("allowed", get_none result "allowed");
                       ("require_approval",
                        get_default result "require_approval" (VBool false));
                       ("reason", get_none result "reason")])]);
     io _ <-
       (if negb (truthy (get_none result "allowed")) then
          io incident_id <- generate_id "inc";
          append_to_json_list Incidents
            (violation_incident incident_id (clock w (clock_pos w)) agent_id
               action_id action_type target (get_none result "reason"))
        else ret true);
     ret (VDict result)) w1 ∧
    agents_json w1 = resolved_agents w agent_id ∧
    policies_json w1 = policies_json w ∧
    incidents_json w1 = incidents_json w ∧
    uuid_hex w1 = uuid_hex w ∧ uuid_pos w1 = S (uuid_pos w)) as (w1 & -> & Hw1).
  { unfold validate_action, bind at 1, lift at 1. rewrite Hparams.
    unfold bind at 1 2 3 4 5, generate_id at 1, get_timestamp,
      _load_policies, _load_agents, load_policies, load_agents.
    cbn [agents_json policies_json uuid_hex uuid_pos clock clock_pos].
    subst evaluation. unfold is_suspended, resolved_agents in *.
    destruct (agents_json w !! agent_id) as [agent|] eqn:Hag.
    - unfold ret at 1. cbn [agents_json]. rewrite Hsusp.
      eexists. split; [reflexivity|]. by repeat split.
    - unfold save_agents at 1, bind at 1, ret at 1. cbn [agents_json].
      rewrite Hsusp. eexists. split; [reflexivity|]. by repeat split. }
  destruct Hw1 as (Hag1 & Hpol1 & Hinc1 & Hhex1 & Hpos1).
  destruct evaluation as [decision| |] eqn:Hev; cycle 1.
  { eexists. split; [reflexivity|]. repeat split; try done. }
  { eexists. split; [reflexivity|]. repeat split; try done. }
  destruct decision as [| | | | |d];
    try (eexists; split; [reflexivity|]; repeat split; try done; intros ? [=]).
  unfold bind, lift, ret, generate_id, append_to_json_list, load_log, save_log.
  cbn -[append_capped truthy]. rewrite Hhex1, Hpos1, Hinc1.
  destruct (truthy (get_default d "allowed" (VBool false))) eqn:Hall;
    cbn -[append_capped truthy];
    (eexists; split; [reflexivity|]);
    cbn -[append_capped truthy]; repeat split; try done;
    intros d' [= <-]; rewrite Hall; reflexivity.
Qed.

(** C8. A call for an agent id that the store does not know writes the
    record of [auto_registered_agent] before it evaluates: trust level
    [low], [auto_registered] true, and no [status] entry at all (where
    [register_agent] writes ["active"]).  The outcome of the call is the
    evaluation of the action for a low-trust agent without tool lists,
    that is, the policies alone.  All this follows the decoding of the
    parameters text on the first line of the call: when [json.loads]
    raises there, the call ends in the exception and the store is as it
    was. *)
Theorem unknown_agent_auto_registered
    (action_type target agent_id parameters context : string) (w : world) :
  agents_json w !! agent_id = None →
  let record := auto_registered_agent agent_id (clock w (clock_pos w)) in
  let agents := <[agent_id := record]> (agents_json w) in
  (∀ params,
     loads_or parameters (VDict []) = Ret params →
     let evaluation :=
       _evaluate_policies action_type target agent_id params
         agents (policies_json w) in
     ∃ w',
       validate_action action_type target agent_id parameters context w =
         (do decision <- evaluation;
          do decision <- as_dict decision;
          Ret (VDict (evaluated_result (drawn_id "act" w 0) decision)), w') ∧
       agents_json w' = agents ∧
       dict_get record "trust_level" = Some (VStr "low") ∧
       dict_get record "auto_registered" = Some (VBool true) ∧
       dict_get record "status" = None ∧
       evaluation =
         (do r <- eval_policies (policies_json w) action_type target (VStr "low") 1;
          Ret (default default_allow r))) ∧
  (∀ e, loads_raises parameters = Some e →
        validate_action action_type target agent_id parameters context w =
          (Raise e, w)).
Proof.
  intros Hnew record agents. split; [|intros e; apply validate_action_raises].
  intros params Hparams evaluation.
  assert (resolved_agents w agent_id = agents) as Hres.
  { unfold resolved_agents. by rewrite Hnew. }
  destruct (validate_action_active action_type target agent_id parameters context w
              params Hparams) as (w' & Hrun & Hag & _).
  { rewrite Hres. unfold is_suspended, agents. by rewrite lookup_insert_eq. }
  rewrite Hres in Hrun, Hag. exists w'. repeat split; try done.
  unfold evaluation, _evaluate_policies, agents. rewrite lookup_insert_eq.
  cbn. by destruct (eval_policies _ _ _ _ _) as [[?|]| |].
Qed.

(** The loops of the evaluator go on behind what decides nothing. *)
Lemma eval_rules_behind policy earlier rules action_type target tl score :
  eval_rules policy earlier action_type target tl score = Ret None →
  eval_rules policy (earlier ++ rules) action_type target tl score =
    eval_rules policy rules action_type target tl score.
Proof.
  induction earlier as [|rule earlier IH]; intros H; [done|].
  cbn [app eval_rules] in *.
  apply obind_ret in H as ([d|] & -> & H); cbn [obind]; [discriminate H|].
  by apply IH.
Qed.

Lemma eval_policies_behind before policies action_type target tl score :
  eval_policies before action_type target tl score = Ret None →
  eval_policies (before ++ policies) action_type target tl score =
    eval_policies policies action_type target tl score.
Proof.
  induction before as [|policy before IH]; intros H; [done|].
  cbn [app eval_policies] in *.
  apply obind_ret in H as ([d|] & -> & H); cbn [obind]; [discriminate H|].
  by apply IH.
Qed.

(** The decision of a [require_approval] rule whose [trust_level_below]
    clause is triggered, from the rule up to [_evaluate_policies]: the
    rule is reached when the agent's tool lists, the policies before
    its policy and the rules before it decide nothing. *)
Lemma approval_rule_decides
    (action_type target agent_id : string) (params : value)
    (agents : gmap string dict) (agent policy rule condition : dict)
    (trust below : string) (before behind earlier later : list value) :
  agents !! agent_id = Some agent →
  get_default agent "trust_level" (VStr "low") = VStr trust →
  check_denied_tools (get_default agent "denied_tools" (VList [])) target agent_id =
    Ret None →
  check_allowed_tools (get_default agent "allowed_tools" (VList [])) target agent_id =
    Ret None →
  eval_policies before action_type target (VStr trust) (score_of trust) = Ret None →
  truthy (get_default policy "enabled" (VBool true)) = true →
  get_default policy "rules" (VList []) = VList (earlier ++ VDict rule :: later) →
  eval_rules policy earlier action_type target (VStr trust) (score_of trust) =
    Ret None →
  get_default rule "condition" (VDict []) = VDict condition →
  pattern_excludes (get_none condition "tool_pattern") target = Ret false →
  pattern_excludes (get_none condition "action_type") action_type = Ret false →
  check_trust_at_least policy rule condition (VStr trust) (score_of trust) target =
    Ret None →
  dict_get condition "trust_level_below" = Some (VStr below) →
  score_of trust < score_of below →
  get_default rule "action" (VStr "deny") = VStr "require_approval" →
  _evaluate_policies action_type target agent_id params agents
    (before ++ VDict policy :: behind) =
    Ret (VDict [("allowed", VBool false);
                ("require_approval", VBool true);
                ("reason", get_default rule "message"
                             (VStr "This action requires human approval"));
                ("policy_matched", get_default policy "id" (VStr "unknown"))]).
Proof.
  intros Hag Htl Hden Hall Hbefore Hen Hrules Hearlier Hcond Htool Hact Hal
    Hbelow Hlt Haction.
  assert (check_trust_below policy rule condition (score_of trust) =
          Ret (Some (VDict
            [("allowed", VBool false);
             ("require_approval", VBool true);
             ("reason", get_default rule "message"
                          (VStr "This action requires human approval"));
             ("policy_matched", get_default policy "id" (VStr "unknown"))])))
    as Hclause.
  { unfold check_trust_below, get_none.
    rewrite (get_default_some _ _ _ _ Hbelow), Haction.
    destruct below as [|c below].
    - pose proof (score_of_pos trust). change (score_of "") with 1 in Hlt. lia.
    - cbn [truthy String.eqb negb trust_levels_get obind].
      apply Z.ltb_lt in Hlt. rewrite Hlt. reflexivity. }
  unfold _evaluate_policies. rewrite Hag. cbn [default from_option id].
  rewrite Htl. cbn [trust_levels_get obind]. rewrite Hden. cbn [obind].
  rewrite Hall. cbn [obind].
  rewrite (eval_policies_behind _ _ _ _ _ _ Hbefore).
  cbn [eval_policies]. unfold eval_policy. cbn [as_dict obind].
  rewrite Hen. cbn [negb]. rewrite Hrules. cbn [py_iter obind].
  rewrite (eval_rules_behind _ _ _ _ _ _ _ Hearlier).
  cbn [eval_rules]. unfold eval_rule. cbn [as_dict obind].
  rewrite Hcond. cbn [as_dict obind]. rewrite Htool. cbn [obind].
  rewrite Hact. cbn [obind]. rewrite Hal. cbn [obind].
  rewrite Hclause. reflexivity.
Qed.

(** C10. When a rule whose action is [require_approval] triggers in a
    call of [validate_action] (the parameters are decoded, the agent is
    not suspended and its tool lists decide nothing; the policies
    before the rule's policy and the rules before it decide nothing;
    the patterns of the rule are satisfied, its [trust_level_at_least]
    clause lets the agent through and the agent's score is below the
    level of [trust_level_below]), the answer carries [require_approval]
    true and [allowed] false with the message of the rule, and the call
    puts at the end of the incident log a [policy_violation] of
    severity [medium] for the agent with the action id of the answer,
    as it does for any refusal: the log is the old one with that
    incident behind it, cut at the front to [max_items] entries. *)
Theorem require_approval_is_denied_and_logged
    (action_type target agent_id parameters context : string)
    (w : world) (params : value) (agent policy rule condition : dict)
    (trust below : string) (before behind earlier later : list value) :
  loads_or parameters (VDict []) = Ret params →
  resolved_agents w agent_id !! agent_id = Some agent →
  is_suspended (resolved_agents w agent_id) agent_id = false →
  get_default agent "trust_level" (VStr "low") = VStr trust →
  check_denied_tools (get_default agent "denied_tools" (VList [])) target agent_id =
    Ret None →
  check_allowed_tools (get_default agent "allowed_tools" (VList [])) target agent_id =
    Ret None →
  policies_json w = before ++ VDict policy :: behind →
  eval_policies before action_type target (VStr trust) (score_of trust) = Ret None →
  truthy (get_default policy "enabled" (VBool true)) = true →
  get_default policy "rules" (VList []) = VList (earlier ++ VDict rule :: later) →
  eval_rules policy earlier action_type target (VStr trust) (score_of trust) =
    Ret None →
  get_default rule "condition" (VDict []) = VDict condition →
  pattern_excludes (get_none condition "tool_pattern") target = Ret false →
  pattern_excludes (get_none condition "action_type") action_type = Ret false →
  check_trust_at_least policy rule condition (VStr trust) (score_of trust) target =
    Ret None →
  dict_get condition "trust_level_below" = Some (VStr below) →
  score_of trust < score_of below →
  get_default rule "action" (VStr "deny") = VStr "require_approval" →
  ∃ result w' incident,
    validate_action action_type target agent_id parameters context w =
      (Ret (VDict result), w') ∧
    dict_get result "require_approval" = Some (VBool true) ∧
    dict_get result "allowed" = Some (VBool false) ∧
    dict_get result "reason" =
      Some (get_default rule "message" (VStr "This action requires human approval")) ∧
    incidents_json w' = append_capped (incidents_json w) (VDict incident) ∧
    incidents_json w' `suffix_of` incidents_json w ++ [VDict incident] ∧
    last (incidents_json w') = Some (VDict incident) ∧
    ((length (incidents_json w) < max_items)%nat →
     incidents_json w' = incidents_json w ++ [VDict incident]) ∧
    dict_get incident "type" = Some (VStr "policy_violation") ∧
    dict_get incident "severity" = Some (VStr "medium") ∧
    dict_get incident "agent_id" = Some (VStr agent_id) ∧
    dict_get incident "action_id" = dict_get result "action_id".
Proof.
  intros Hparams Hag Hsusp Htl Hden Hall Hpol Hbefore Hen Hrules Hearlier Hcond
    Htool Hact Hal Hbelow Hlt Haction.
  pose proof (approval_rule_decides action_type target agent_id params _ _ _ _ _
                _ _ _ behind _ later Hag Htl Hden Hall Hbefore Hen Hrules Hearlier
                Hcond Htool Hact Hal Hbelow Hlt Haction) as Hev.
  rewrite <- Hpol in Hev.
  destruct (validate_action_active action_type target agent_id parameters context
              w params Hparams Hsusp) as (w' & Hrun & _ & _ & Hinc).
  cbv zeta in Hrun, Hinc. rewrite Hev in Hrun. specialize (Hinc _ Hev).
  cbn [get_default dict_get String.eqb Ascii.eqb Bool.eqb truthy] in Hinc.
  cbn [obind as_dict] in Hrun.
  do 3 eexists. split; [exact Hrun|].
  unfold evaluated_result.
  cbn [get_default dict_get String.eqb Ascii.eqb Bool.eqb].
  split; [reflexivity|]. split; [reflexivity|]. split; [reflexivity|].
  split; [exact Hinc|].
  split.
  { rewrite Hinc. unfold append_capped. cbv zeta.
    destruct (Nat.ltb _ _); [apply suffix_drop|done]. }
  split; [rewrite Hinc; apply last_append_capped|].
  split; [intros Hroom; rewrite Hinc; by apply append_capped_room|].
  repeat split; reflexivity.
Qed.

(** A decision asks for approval only when a rule whose action is
    [require_approval] produced it. *)
Lemma approval_comes_from_rule policy rule action_type target tl score d :
  eval_rule policy rule action_type target tl score = Ret (Some (VDict d)) →
  dict_get d "require_approval" = Some (VBool true) →
  ∃ r, rule = VDict r ∧
       eq_str (get_default r "action" (VStr "deny")) "require_approval" = true.
Proof.
  unfold eval_rule. intros H Hreq.
  apply obind_ret in H as (r & Hr & H). destruct rule; try discriminate Hr.
  injection Hr as ->. exists r. split; [done|].
  apply obind_ret in H as (c & _ & H).
  apply obind_ret in H as ([|] & _ & H); [discriminate H|].
  apply obind_ret in H as ([|] & _ & H); [discriminate H|].
  apply obind_ret in H as ([v|] & Hal & H).
  - injection H as ->. unfold check_trust_at_least in Hal. inv_ret.
    subst. discriminate Hreq.
  - unfold check_trust_below in H. inv_ret; subst; [discriminate Hreq|done].
Qed.

(** ** report_incident *)


Lemma suspend_record_fields agent timestamp incident_id :
  let agent' := suspend_record agent timestamp incident_id in
  dict_get agent' "status" = Some (VStr "suspended") ∧
  dict_get agent' "suspended_at" = Some (VStr timestamp) ∧
  dict_get agent' "suspension_reason" =
    Some (VStr ("Auto-suspended due to critical incident: " +:+ incident_id)).
Proof.
  cbv zeta. unfold suspend_record. repeat split.
  - do 2 (rewrite dict_get_set_ne by done). apply dict_get_set_eq.
  - rewrite dict_get_set_ne by done. apply dict_get_set_eq.
  - apply dict_get_set_eq.
Qed.


(** ** create_policy *)

Lemma eq_str_true a s : eq_str a s = true → a = VStr s.
Proof.
  destruct a; simpl; try discriminate. by intros ->%String.eqb_eq.
Qed.

Lemma unknown_action_invalid a :
  (∀ s, s ∈ valid_actions → a ≠ VStr s) → invalid_action a = true.
Proof.
  intros Hno. unfold invalid_action. apply negb_true_iff.
  apply not_true_is_false. intros (s & Hin & Heq)%existsb_exists.
  apply eq_str_true in Heq. apply (Hno s); [|done]. by apply list_elem_of_In.
Qed.

Lemma validate_rules_from_rejects i rules r :
  r ∈ rules → empty_condition r ∨ unknown_action r →
  fst (validate_rules_from i rules) = false.
Proof.
  intros Hin Hbad. revert i.
  induction Hin as [r rules|r r' rules Hin IH]; intros i; simpl.
  - destruct Hbad as [(d & -> & Hc)|(d & a & -> & Ha & Hno)].
    + by rewrite Hc.
    + destruct (negb (truthy (get_default d "condition" (VDict [])))); [done|].
      rewrite (get_default_some _ _ _ _ Ha), (unknown_action_invalid _ Hno). done.
  - destruct r' as [| | | | |d]; try reflexivity.
    destruct (negb (truthy (get_default d "condition" (VDict [])))); [done|].
    destruct (invalid_action (get_default d "action" (VStr "deny"))); [done|].
    by apply IH.
Qed.

(** C7. A rule set that is empty, or that holds a rule with an empty
    condition or an action outside allow / deny / require_approval, is
    answered with [success] false, and the call writes nothing: the
    policy file, and every other file, is as before. *)
Theorem invalid_rules_leave_store_unchanged
    (policy_id name description rules : string) (priority : Z) (enabled : bool)
    (w : world) (rules_list : list value) :
  decoded_rules rules = Decoded (VList rules_list) →
  invalid_rule_set rules_list →
  ∃ result message w',
    create_policy policy_id name description rules priority enabled w =
      (Ret (VDict result), w') ∧
    VDict result = failure policy_id message ∧
    dict_get result "success" = Some (VBool false) ∧
    policies_json w' = policies_json w ∧
    agents_json w' = agents_json w ∧
    audit_log_json w' = audit_log_json w ∧
    incidents_json w' = incidents_json w.
Proof.
  intros Hdec Hbad. unfold create_policy, bind at 1, get_timestamp.
  rewrite Hdec. unfold _validate_policy_rules.
  destruct Hbad as [->|(r & Hin & Hr)].
  - cbn. do 3 eexists. by repeat split.
  - destruct rules_list as [|r0 rs]; [by apply elem_of_nil in Hin|].
    cbn [truthy negb py_iter obind].
    pose proof (validate_rules_from_rejects 0 _ _ Hin Hr) as Hrej.
    destruct (validate_rules_from 0 (r0 :: rs)) as [valid msg]. simpl in Hrej.
    subst valid. cbn. do 3 eexists. by repeat split.
Qed.

(** ** The trust clauses of a rule *)

(** C4. The clause [trust_level_at_least] decides only against an agent
    whose score is below the required one, and only when the action of
    the rule is [deny]; the decision is then the refusal whose reason
    gives the required and the actual level.  In every other case (the
    action is [allow] or [require_approval], or the agent meets the
    threshold) the clause decides nothing, and a rule whose patterns
    are satisfied goes on to its [trust_level_below] clause: no
    permission comes from it. *)
Theorem trust_level_at_least_only_denies
    (policy rule condition : dict) (target trust required : string) :
  dict_get condition "trust_level_at_least" = Some (VStr required) →
  let action := get_default rule "action" (VStr "deny") in
  let below_threshold := score_of trust <? score_of required in
  let refusal :=
    VDict [("allowed", VBool false);
           ("reason", VStr ("Tool '" +:+ target +:+ "' requires trust level '" +:+
                            required +:+ "', agent has '" +:+ trust +:+ "'"));
           ("policy_matched", get_default policy "id" (VStr "unknown"))] in
  check_trust_at_least policy rule condition (VStr trust) (score_of trust) target =
    Ret (if below_threshold && eq_str action "deny" then Some refusal else None) ∧
  ∀ action_type,
    get_default rule "condition" (VDict []) = VDict condition →
    pattern_excludes (get_none condition "tool_pattern") target = Ret false →
    pattern_excludes (get_none condition "action_type") action_type = Ret false →
    eval_rule policy (VDict rule) action_type target (VStr trust) (score_of trust) =
      (if below_threshold && eq_str action "deny" then Ret (Some refusal)
       else check_trust_below policy rule condition (score_of trust)).
Proof.
  intros Hreq action below_threshold refusal.
  assert (check_trust_at_least policy rule condition (VStr trust) (score_of trust)
            target =
          Ret (if below_threshold && eq_str action "deny"
               then Some refusal else None)) as Hclause.
  { unfold check_trust_at_least, get_none.
    rewrite (get_default_some _ _ _ _ Hreq). fold action.
    destruct (truthy (VStr required)) eqn:Htruthy.
    - cbn [trust_levels_get obind fmt]. fold below_threshold.
      by destruct below_threshold, (eq_str action "deny").
    - destruct required; [|discriminate Htruthy].
      pose proof (score_of_pos trust). subst below_threshold.
      replace (score_of trust <? score_of "") with false; [done|].
      symmetry. apply Z.ltb_ge. by change (score_of "") with 1. }
  split; [exact Hclause|].
  intros action_type Hcond Htool Hact.
  unfold eval_rule. cbn [as_dict obind]. rewrite Hcond. cbn [as_dict obind].
  rewrite Htool. cbn [obind]. rewrite Hact. cbn [obind]. rewrite Hclause.
  cbn [obind].
  by destruct (below_threshold && eq_str action "deny").
Qed.

(** C3. The clause [trust_level_below] is triggered exactly when the
    agent's score is strictly less than the score of the named level.
    Triggered, [deny] refuses with the message of the rule,
    [require_approval] answers with [require_approval] true and the
    message, and any other action decides nothing; in a rule that is
    reached with its patterns satisfied and let through by
    [trust_level_at_least], deciding nothing means that the loop goes
    on as if the rule were not there.  The scores are low 1, medium 2,
    high 3, admin 4, and the delete rule of the test policy lets an
    admin agent through to the default permission while it refuses a
    low one. *)
Theorem trust_level_below_triggers
    (policy rule condition : dict) (trust below : string) :
  dict_get condition "trust_level_below" = Some (VStr below) →
  let action := get_default rule "action" (VStr "deny") in
  let triggered := score_of trust <? score_of below in
  let refusal :=
    VDict [("allowed", VBool false);
           ("reason", get_default rule "message"
                        (VStr ("Access denied by policy '" +:+
                               fmt (get_none policy "id") +:+ "'")));
           ("policy_matched", get_default policy "id" (VStr "unknown"))] in
  let approval :=
    VDict [("allowed", VBool false);
           ("require_approval", VBool true);
           ("reason", get_default rule "message"
                        (VStr "This action requires human approval"));
           ("policy_matched", get_default policy "id" (VStr "unknown"))] in
  let decided :=
    if triggered then
      if eq_str action "deny" then Some refusal
      else if eq_str action "require_approval" then Some approval
      else None
    else None in
  check_trust_below policy rule condition (score_of trust) = Ret decided ∧
  (∀ rules action_type target,
     get_default rule "condition" (VDict []) = VDict condition →
     pattern_excludes (get_none condition "tool_pattern") target = Ret false →
     pattern_excludes (get_none condition "action_type") action_type = Ret false →
     check_trust_at_least policy rule condition (VStr trust) (score_of trust)
       target = Ret None →
     eval_rules policy (VDict rule :: rules) action_type target (VStr trust)
         (score_of trust) =
       match decided with
       | Some decision => Ret (Some decision)
       | None => eval_rules policy rules action_type target (VStr trust)
                   (score_of trust)
       end) ∧
  (score_of "low" = 1 ∧ score_of "medium" = 2 ∧ score_of "high" = 3 ∧
   score_of "admin" = 4) ∧
  _evaluate_policies "tool_call" "delete_records" "test-admin" (VDict [])
    test_agents [test_policy] = Ret default_allow ∧
  _evaluate_policies "tool_call" "delete_records" "test-low" (VDict [])
    test_agents [test_policy] =
    Ret (VDict [("allowed", VBool false);
                ("reason", VStr "Delete requires admin");
                ("policy_matched", VStr "test-policy")]).
Proof.
  intros Hbelow action triggered refusal approval decided.
  assert (check_trust_below policy rule condition (score_of trust) = Ret decided)
    as Hclause.
  { unfold check_trust_below, get_none.
    rewrite (get_default_some _ _ _ _ Hbelow). fold action.
    destruct (truthy (VStr below)) eqn:Htruthy.
    - cbn [trust_levels_get obind]. subst decided. fold triggered.
      destruct triggered; [|done].
      by destruct (eq_str action "deny"), (eq_str action "require_approval").
    - destruct below; [|discriminate Htruthy].
      pose proof (score_of_pos trust). subst decided triggered.
      replace (score_of trust <? score_of "") with false; [done|].
      symmetry. apply Z.ltb_ge. by change (score_of "") with 1. }
  split; [exact Hclause|].
  split; [|repeat split; vm_compute; reflexivity].
  intros rules action_type target Hcond Htool Hact Hal.
  cbn [eval_rules]. unfold eval_rule. cbn [as_dict obind].
  rewrite Hcond. cbn [as_dict obind]. rewrite Htool. cbn [obind].
  rewrite Hact. cbn [obind]. rewrite Hal. cbn [obind].
  rewrite Hclause. cbn [obind]. by destruct decided.
Qed.

(** ** Where the matcher and the glob of the specification agree

    On a pattern made of [*] and of characters that mean nothing to
    [re], and a value without a newline, both of 7-bit ASCII,
    [_match_pattern] returns what section 4.1 asks for. *)

Lemma repeat_of_none c :
  repeat_of c = None →
  is_char c "*" = false ∧ is_char c "+" = false ∧ is_char c "?" = false.
Proof.
  unfold repeat_of.
  destruct (is_char c "*"), (is_char c "+"), (is_char c "?"); done.
Qed.

Lemma plain_inv c :
  plain c = true →
  is_char c "." = false ∧ is_char c "^" = false ∧ is_char c "$" = false ∧
  beyond_fragment c = false ∧ repeat_of c = None.
Proof.
  unfold plain.
  destruct (is_char c "."), (is_char c "^"), (is_char c "$"),
    (beyond_fragment c), (repeat_of c); done.
Qed.

Lemma is_char_eq c d : is_char c (String d EmptyString) = true → c = d.
Proof.
  unfold is_char. intros H%String.eqb_eq. by injection H.
Qed.

Lemma append_cons c s t : String c s +:+ t = String c (s +:+ t).
Proof. reflexivity. Qed.

Lemma append_nil t : "" +:+ t = t.
Proof. reflexivity. Qed.

Lemma sre_parse_glob p acc after_repeat :
  glob_pattern p = true →
  sre_parse (replace_star p +:+ "$") acc after_repeat =
    Ret (rev acc ++ items_of p ++ [At_end]).
Proof.
  revert acc after_repeat.
  induction p as [|c p IH]; intros acc after_repeat Hp.
  - cbn [replace_star items_of app]. rewrite append_nil.
    by destruct after_repeat.
  - cbn [glob_pattern] in Hp. cbn [replace_star items_of].
    destruct (is_char c "*") eqn:Hstar.
    + apply is_char_eq in Hstar as ->.
      rewrite !append_cons.
      destruct after_repeat; cbn -[String.append replace_star];
      (rewrite IH by done); cbn [rev]; by rewrite <- !app_assoc.
    + apply andb_prop in Hp as [Hc Hp].
      apply plain_inv in Hc as (Hdot & Hbol & Heol & Hbeyond & Hrep).
      destruct (repeat_of_none _ Hrep) as (_ & Hplus & Hopt).
      rewrite append_cons. cbn [sre_parse].
      rewrite Hopt, Hplus, !andb_false_r, Hrep, Hdot, Hbol, Heol, Hbeyond.
      rewrite IH by done. cbn [rev]. by rewrite <- !app_assoc.
Qed.

Lemma at_end_no_newline v :
  no_newline v = true → at_end v = String.eqb v "".
Proof.
  destruct v as [|c [|d v]]; simpl; try done.
  by intros ->%andb_prop%proj1%negb_true_iff.
Qed.

Lemma star_any_then k k' at_start v :
  no_newline v = true →
  (∀ b s, no_newline s = true → k b s = k' s) →
  star (atom_ok AnyChar) k at_start v = any_then k' v.
Proof.
  intros Hv Hk. revert at_start.
  induction v as [|c v IH]; intros at_start; cbn [star any_then].
  - by rewrite Hk.
  - rewrite (Hk _ _ Hv).
    cbn [no_newline] in Hv. apply andb_prop in Hv as [Hc Hv].
    cbn [atom_ok]. rewrite Hc. cbn [andb]. by rewrite IH.
Qed.

Lemma sre_match_glob p at_start v :
  glob_pattern p = true → no_newline v = true →
  sre_match (items_of p ++ [At_end]) at_start v = glob p v.
Proof.
  revert at_start v.
  induction p as [|c p IH]; intros at_start v Hp Hv.
  - cbn. rewrite andb_true_r. by apply at_end_no_newline.
  - cbn [glob_pattern] in Hp. cbn [items_of glob].
    destruct (is_char c "*") eqn:Hstar.
    + cbn [app sre_match]. apply star_any_then; [done|].
      intros b s Hs. by apply IH.
    + apply andb_prop in Hp as [_ Hp]. cbn [app sre_match].
      destruct v as [|d v]; [done|].
      cbn [no_newline] in Hv. apply andb_prop in Hv as [_ Hv].
      cbn [atom_ok]. by rewrite IH.
Qed.

Lemma ascii_text_regex p :
  ascii_text p = true → ascii_text (replace_star p +:+ "$") = true.
Proof.
  induction p as [|c p IH]; [done|].
  cbn [ascii_text replace_star]. intros [Hc Hp]%andb_prop.
  destruct (is_char c "*"); rewrite !append_cons; cbn [ascii_text].
  - by rewrite IH.
  - by rewrite Hc, IH.
Qed.

(** The matcher refines the glob of the specification on this domain. *)
Lemma match_pattern_glob p v :
  glob_pattern p = true → ascii_text p = true →
  no_newline v = true → ascii_text v = true →
  _match_pattern (VStr p) v = Ret (matches_spec p v).
Proof.
  intros Hp Hpa Hv Hva. unfold _match_pattern, matches_spec.
  destruct (String.eqb p "*"); [done|].
  unfold re_match. rewrite append_cons, append_nil. cbn [sre_parse andb].
  cbn [is_char String.eqb Ascii.eqb Bool.eqb repeat_of andb beyond_fragment orb].
  rewrite sre_parse_glob by done. cbn [rev app obind sre_match andb].
  cbn [ascii_text]. rewrite (ascii_text_regex _ Hpa), Hva.
  replace (seven_bit "^") with true by reflexivity. cbn [andb].
  by rewrite sre_match_glob.
Qed.

(** * Properties beyond the claims *)

(** ** The capped append of core/utils.py *)

Lemma append_capped_bound data item :
  (length (append_capped data item) ≤ max_items)%nat.
Proof.
  unfold append_capped, max_items. cbv zeta.
  destruct (Nat.ltb 1000 (length (data ++ [item]))) eqn:Hlt.
  - apply Nat.ltb_lt in Hlt. rewrite length_drop. lia.
  - by apply Nat.ltb_ge in Hlt.
Qed.

(** X1. An append never leaves more than [max_items] entries: the log
    holds one entry more, or exactly [max_items] once it is full. *)
Theorem append_capped_length data item :
  length (append_capped data item) = Nat.min (length data + 1) max_items.
Proof.
  unfold append_capped, max_items. cbv zeta.
  destruct (Nat.ltb 1000 (length (data ++ [item]))) eqn:Hlt.
  - apply Nat.ltb_lt in Hlt. rewrite length_drop.
    rewrite length_app in *. cbn [length] in *. lia.
  - apply Nat.ltb_ge in Hlt. rewrite length_app in *. cbn [length] in *. lia.
Qed.

(** X2. The append drops from the front only: what is kept is the
    newest end of the log with the new item last, in the old order, and
    below the bound nothing is dropped. *)
Theorem append_capped_keeps_newest data item :
  append_capped data item `suffix_of` data ++ [item] ∧
  last (append_capped data item) = Some item ∧
  ((length data < max_items)%nat → append_capped data item = data ++ [item]).
Proof.
  split; [|split].
  - unfold append_capped. case_match; [apply suffix_drop|done].
  - apply last_append_capped.
  - intros Hlt. unfold append_capped.
    destruct (Nat.ltb max_items (length (data ++ [item]))) eqn:E; [|done].
    apply Nat.ltb_lt in E. rewrite length_app in E. cbn [length] in E.
    unfold max_items in *. lia.
Qed.

(** ** The run of validate_action *)

(** A call decodes its parameters, and is then its decision followed by
    the recording of it; when the decoding raises, nothing has happened,
    and when the evaluation does not return, nothing is recorded. *)
Lemma validate_action_run
    (action_type target agent_id parameters context : string) (w : world) :
  validate_action action_type target agent_id parameters context w =
    match loads_or parameters (VDict []) with
    | Ret params =>
        match decision_of action_type target agent_id params w with
        | Ret result =>
            (Ret (VDict result),
             world_after_answer action_type target agent_id params context w result)
        | Raise e => (Raise e, world_after_abort agent_id w)
        | Unmodelled => (Unmodelled, world_after_abort agent_id w)
        end
    | Raise e => (Raise e, w)
    | Unmodelled => (Unmodelled, w)
    end.
Proof.
  unfold validate_action, bind at 1, lift at 1.
  destruct (loads_or parameters (VDict [])) as [params| |]; [|done..].
  unfold decision_of, world_after_answer, world_after_abort,
    audit_entry_of, refused, drawn_id.
  unfold bind at 1 2 3 4 5, generate_id at 1, get_timestamp,
    _load_policies, _load_agents, load_policies, load_agents.
  cbn [agents_json policies_json uuid_hex uuid_pos clock clock_pos].
  unfold is_suspended, resolved_agents.
  destruct (agents_json w !! agent_id) as [agent|] eqn:Hag.
  - unfold ret at 1. cbn [agents_json].
    destruct (eq_str _ "suspended") eqn:Hsusp.
    + cbn -[append_capped]. reflexivity.
    + destruct (_evaluate_policies _ _ _ _ _ _) as [[| | | | |d]| |] eqn:Hev;
        try reflexivity.
      unfold bind, lift, ret, generate_id, append_to_json_list, load_log, save_log.
      cbn -[append_capped truthy].
      destruct (truthy (get_default d "allowed" (VBool false))); reflexivity.
  - unfold save_agents at 1, bind at 1, ret at 1. cbn [agents_json].
    destruct (eq_str _ "suspended") eqn:Hsusp.
    + cbn -[append_capped]. reflexivity.
    + cbn [policies_json].
      destruct (_evaluate_policies _ _ _ _ _ _) as [[| | | | |d]| |] eqn:Hev;
        try reflexivity.
      unfold bind, lift, ret, generate_id, append_to_json_list, load_log, save_log.
      cbn -[append_capped truthy].
      destruct (truthy (get_default d "allowed" (VBool false))); reflexivity.
Qed.

(** X3. A call of [validate_action] leaves the policy file as it was
    and changes the agent file in one way only: once the parameters
    text has passed [json.loads], an unknown caller is added with its
    auto-registered record, whatever the evaluation then gives.  The
    record of a known agent, and every other record, is untouched; and
    a call whose parameters text makes [json.loads] raise leaves the
    whole store as it was, the unknown caller unregistered. *)
Theorem validate_action_frame
    (action_type target agent_id parameters context : string) (w : world) :
  let w' := snd (validate_action action_type target agent_id parameters context w) in
  policies_json w' = policies_json w ∧
  (∀ other, other ≠ agent_id → agents_json w' !! other = agents_json w !! other) ∧
  (∀ agent, agents_json w !! agent_id = Some agent →
            agents_json w' !! agent_id = Some agent) ∧
  (loads_raises parameters = None →
   agents_json w' !! agent_id =
     Some (default (auto_registered_agent agent_id (clock w (clock_pos w)))
             (agents_json w !! agent_id))) ∧
  (∀ e, loads_raises parameters = Some e → w' = w).
Proof.
  cbv zeta. rewrite validate_action_run.
  assert (∀ w', agents_json w' = resolved_agents w agent_id →
    (∀ other, other ≠ agent_id → agents_json w' !! other = agents_json w !! other) ∧
    (∀ agent, agents_json w !! agent_id = Some agent →
              agents_json w' !! agent_id = Some agent) ∧
    agents_json w' !! agent_id =
      Some (default (auto_registered_agent agent_id (clock w (clock_pos w)))
              (agents_json w !! agent_id))) as Hres.
  { intros w' ->. unfold resolved_agents.
    destruct (agents_json w !! agent_id) as [agent|] eqn:Hag.
    - rewrite Hag. by repeat split.
    - repeat split; [intros; by apply lookup_insert_ne|done|apply lookup_insert_eq]. }
  destruct (loads_or_cases parameters (VDict []))
    as [(params & Hok & ->)|(e & He & ->)].
  - rewrite Hok.
    destruct (decision_of _ _ _ _ _); cbn [snd];
      (split; [reflexivity|]);
      match goal with
      | |- context [agents_json ?w' !! _] =>
          destruct (Hres w' eq_refl) as (Hother & Hknown & Hself)
      end;
      (split; [exact Hother|]); (split; [exact Hknown|]);
      (split; [intros _; exact Hself|intros ? [=]]).
  - rewrite He. cbn [snd]. repeat split; done.
Qed.


(** X5. An answer is followed by an incident exactly when it is not
    [allowed]: a refusal, from whatever source, appends one
    [policy_violation] of severity [medium] for the agent under the
    action id of the answer, and a permission leaves the incident log
    as it was. *)
Theorem validate_action_incident_iff_refused
    (action_type target agent_id parameters context : string) (w : world)
    (result : dict) :
  let run := validate_action action_type target agent_id parameters context w in
  fst run = Ret (VDict result) →
  if truthy (get_none result "allowed") then
    incidents_json (snd run) = incidents_json w
  else
    ∃ incident,
      incidents_json (snd run) = append_capped (incidents_json w) (VDict incident) ∧
      dict_get incident "type" = Some (VStr "policy_violation") ∧
      dict_get incident "severity" = Some (VStr "medium") ∧
      dict_get incident "agent_id" = Some (VStr agent_id) ∧
      dict_get incident "action_id" = dict_get result "action_id".
Proof.
  cbv zeta. rewrite validate_action_run.
  destruct (loads_or parameters (VDict [])) as [params| |]; try discriminate.
  destruct (decision_of _ _ _ _ _) as [r| |] eqn:Hdec; try discriminate.
  cbn [fst snd]. intros [= <-].
  assert (dict_get r "action_id" = Some (VStr (drawn_id "act" w 0))) as Hid.
  { unfold decision_of in Hdec. destruct (is_suspended _ _).
    - by injection Hdec as <-.
    - inv_ret. by subst. }
  unfold world_after_answer, refused. cbn [incidents_json].
  destruct (truthy (get_none r "allowed")); cbn [negb]; [done|].
  eexists. split; [reflexivity|]. by repeat split.
Qed.

(** ** The evaluator *)

(** X6. An agent whose allow list is not empty and not [["*"]] is
    refused every target that the list does not match, whatever the
    policies hold and even without any. *)
Theorem allowed_tools_refuse_unlisted
    (action_type target agent_id : string) (parameters : value)
    (agents : gmap string dict) (policies : list value)
    (agent : dict) (trust : string) (patterns : list value) :
  agents !! agent_id = Some agent →
  get_default agent "trust_level" (VStr "low") = VStr trust →
  check_denied_tools (get_default agent "denied_tools" (VList [])) target agent_id =
    Ret None →
  dict_get agent "allowed_tools" = Some (VList patterns) →
  patterns ≠ [] → is_star_list (VList patterns) = false →
  any_match patterns target = Ret false →
  _evaluate_policies action_type target agent_id parameters agents policies =
    Ret (deny_agent_allowed_tools target agent_id).
Proof.
  intros Hag Htl Hden Hall Hne Hstar Hscan. unfold _evaluate_policies.
  rewrite Hag. cbn [default from_option id]. rewrite Htl, Hden.
  cbn [trust_levels_get obind].
  rewrite (get_default_some _ _ _ _ Hall). unfold check_allowed_tools.
  rewrite Hstar. destruct patterns as [|p ps]; [done|].
  cbn [truthy negb andb py_iter obind]. by rewrite Hscan.
Qed.

Lemma trust_levels_get_bounds level score :
  trust_levels_get level = Ret score → 1 ≤ score ≤ 4.
Proof.
  destruct level; simpl; intros [= <-]; try lia.
  split; [apply score_of_pos|].
  unfold score_of. destruct (assoc s trust_levels) as [n|] eqn:E; simpl; [|lia].
  unfold trust_levels in E. cbn [assoc] in E.
  repeat match type of E with
  | (if ?b then _ else _) = _ => destruct b; [injection E as <-; lia|]
  end.
  discriminate E.
Qed.

Lemma top_score_passes_rule policy rule action_type target tl score r :
  4 ≤ score →
  eval_rule policy rule action_type target tl score = Ret r → r = None.
Proof.
  intros Htop H. unfold eval_rule in H.
  apply obind_ret in H as (rd & _ & H).
  apply obind_ret in H as (c & _ & H).
  apply obind_ret in H as ([|] & _ & H); [by injection H|].
  apply obind_ret in H as ([|] & _ & H); [by injection H|].
  apply obind_ret in H as (r1 & Hal & H).
  assert (r1 = None) as ->.
  { unfold check_trust_at_least in Hal.
    destruct (truthy _); [|by injection Hal].
    apply obind_ret in Hal as (req & Hreq%trust_levels_get_bounds & Hal).
    destruct (score <? req) eqn:Hlt; [apply Z.ltb_lt in Hlt; lia|].
    by injection Hal. }
  unfold check_trust_below in H.
  destruct (truthy _); [|by injection H].
  apply obind_ret in H as (below & Hb%trust_levels_get_bounds & H).
  destruct (score <? below) eqn:Hlt; [apply Z.ltb_lt in Hlt; lia|].
  by injection H.
Qed.

Lemma top_score_passes_rules policy rules action_type target tl score r :
  4 ≤ score →
  eval_rules policy rules action_type target tl score = Ret r → r = None.
Proof.
  intros Htop. induction rules as [|rule rules IH]; simpl; intros H.
  - by injection H.
  - apply obind_ret in H as (r1 & Hr & H).
    apply (top_score_passes_rule _ _ _ _ _ _ _ Htop) in Hr as ->. auto.
Qed.

Lemma top_score_passes_policies policies action_type target tl score r :
  4 ≤ score →
  eval_policies policies action_type target tl score = Ret r → r = None.
Proof.
  intros Htop. induction policies as [|policy policies IH]; simpl; intros H.
  - by injection H.
  - apply obind_ret in H as (r1 & Hp & H).
    assert (r1 = None) as ->; [|auto].
    unfold eval_policy in Hp. apply obind_ret in Hp as (d & _ & Hp).
    destruct (negb _); [by injection Hp|].
    apply obind_ret in Hp as (rs & _ & Hp).
    by apply (top_score_passes_rules _ _ _ _ _ _ _ Htop) in Hp.
Qed.

(** X7. No policy rule ever refuses an agent of trust level [admin]:
    both trust clauses compare with a score of at most 4, which admin
    is never below.  An admin agent without tool lists is therefore
    permitted whenever the evaluation returns at all. *)
Theorem admin_is_never_refused_by_policies
    (action_type target agent_id : string) (parameters : value)
    (agents : gmap string dict) (policies : list value) (agent : dict) (v : value) :
  agents !! agent_id = Some agent →
  dict_get agent "trust_level" = Some (VStr "admin") →
  truthy (get_default agent "denied_tools" (VList [])) = false →
  truthy (get_default agent "allowed_tools" (VList [])) = false →
  _evaluate_policies action_type target agent_id parameters agents policies = Ret v →
  v = default_allow.
Proof.
  intros Hag Htl Hden Hall H. unfold _evaluate_policies in H.
  rewrite Hag in H. cbn [default from_option id] in H.
  rewrite (get_default_some _ _ _ _ Htl) in H.
  unfold check_denied_tools, check_allowed_tools in H. rewrite Hden, Hall in H.
  cbn [trust_levels_get obind andb] in H.
  apply obind_ret in H as (r & Hr & H).
  apply top_score_passes_policies in Hr as ->; [|done].
  by injection H.
Qed.

Lemma check_trust_at_least_monotone policy rule condition tl tl' score score' target :
  score ≤ score' →
  check_trust_at_least policy rule condition tl score target = Ret None →
  check_trust_at_least policy rule condition tl' score' target = Ret None.
Proof.
  intros Hle H. unfold check_trust_at_least in *.
  destruct (truthy _); [|done].
  destruct (trust_levels_get _) as [req| |]; try discriminate H.
  cbn [obind] in *.
  destruct (score' <? req) eqn:Hlt'; [|done].
  destruct (score <? req) eqn:Hlt.
  - by destruct (eq_str _ "deny").
  - apply Z.ltb_lt in Hlt'. apply Z.ltb_ge in Hlt. lia.
Qed.

Lemma check_trust_below_monotone policy rule condition score score' :
  score ≤ score' →
  check_trust_below policy rule condition score = Ret None →
  check_trust_below policy rule condition score' = Ret None.
Proof.
  intros Hle H. unfold check_trust_below in *.
  destruct (truthy _); [|done].
  destruct (trust_levels_get _) as [below| |]; try discriminate H.
  cbn [obind] in *.
  destruct (score' <? below) eqn:Hlt'; [|done].
  destruct (score <? below) eqn:Hlt.
  - cbv zeta in *.
    destruct (eq_str (get_default rule "action" (VStr "deny")) "deny");
      [discriminate H|].
    by destruct (eq_str (get_default rule "action" (VStr "deny")) "require_approval").
  - apply Z.ltb_lt in Hlt'. apply Z.ltb_ge in Hlt. lia.
Qed.

Lemma eval_rules_monotone policy rules action_type target tl tl' score score' :
  score ≤ score' →
  eval_rules policy rules action_type target tl score = Ret None →
  eval_rules policy rules action_type target tl' score' = Ret None.
Proof.
  intros Hle. induction rules as [|rule rules IH]; simpl; [done|]. intros H.
  apply obind_ret in H as ([d|] & Hr & H); [discriminate H|].
  assert (eval_rule policy rule action_type target tl' score' = Ret None) as ->;
    [|by apply IH].
  unfold eval_rule in *.
  destruct (as_dict rule) as [rd| |]; try discriminate Hr. cbn [obind] in *.
  destruct (as_dict _) as [c| |]; try discriminate Hr. cbn [obind] in *.
  destruct (pattern_excludes _ target) as [[|]| |]; try discriminate Hr; [done|].
  cbn [obind] in *.
  destruct (pattern_excludes _ action_type) as [[|]| |]; try discriminate Hr; [done|].
  cbn [obind] in *.
  apply obind_ret in Hr as ([d|] & Hal & Hr); [discriminate Hr|].
  rewrite (check_trust_at_least_monotone _ _ _ _ tl' _ _ _ Hle Hal). cbn [obind].
  by apply (check_trust_below_monotone _ _ _ _ _ Hle).
Qed.

Lemma eval_policies_monotone policies action_type target tl tl' score score' :
  score ≤ score' →
  eval_policies policies action_type target tl score = Ret None →
  eval_policies policies action_type target tl' score' = Ret None.
Proof.
  intros Hle. induction policies as [|policy policies IH]; simpl; [done|]. intros H.
  apply obind_ret in H as ([d|] & Hp & H); [discriminate H|].
  assert (eval_policy policy action_type target tl' score' = Ret None) as ->;
    [|by apply IH].
  unfold eval_policy in *.
  destruct (as_dict policy) as [pd| |]; try discriminate Hp. cbn [obind] in *.
  destruct (negb _); [done|].
  destruct (py_iter _) as [rs| |]; try discriminate Hp. cbn [obind] in *.
  by apply (eval_rules_monotone _ _ _ _ tl _ score).
Qed.

(** X8. Raising the trust level of an agent never turns a permission
    into a refusal: if an action is permitted by default for an agent,
    it is permitted for the same agent with any level that scores at
    least as high. *)
Theorem more_trust_keeps_permission
    (action_type target agent_id : string) (parameters : value)
    (agents : gmap string dict) (policies : list value)
    (agent : dict) (trust trust' : string) :
  get_default agent "trust_level" (VStr "low") = VStr trust →
  score_of trust ≤ score_of trust' →
  _evaluate_policies action_type target agent_id parameters
    (<[agent_id := agent]> agents) policies = Ret default_allow →
  _evaluate_policies action_type target agent_id parameters
    (<[agent_id := dict_set agent "trust_level" (VStr trust')]> agents) policies =
    Ret default_allow.
Proof.
  intros Htl Hle H. unfold _evaluate_policies in *.
  rewrite lookup_insert_eq in *. cbn [default from_option id] in *.
  rewrite Htl in H. unfold get_default in *.
  rewrite dict_get_set_eq, !dict_get_set_ne by done.
  cbn [trust_levels_get obind] in *.
  destruct (check_denied_tools _ _ _) as [[d|]| |]; try discriminate H; [done|].
  cbn [obind] in *.
  destruct (check_allowed_tools _ _ _) as [[d|]| |]; try discriminate H; [done|].
  cbn [obind] in *.
  apply obind_ret in H as ([d|] & Hp & H).
  { injection H as ->. apply eval_policies_denies in Hp as (d' & [= <-] & Hd).
    discriminate Hd. }
  by rewrite (eval_policies_monotone _ _ _ _ (VStr trust') _ _ Hle Hp).
Qed.

(** X9. A rule whose action is neither [deny] nor [require_approval]
    (an [allow] rule) never ends the evaluation: when the loop over the
    rules returns, it returns what it returns without that rule.  An
    [allow] rule cannot shield an action from a refusal further down. *)
Theorem allow_rule_decides_nothing
    (policy rule : dict) (rules : list value) (action_type target : string)
    (trust_level : value) (score : Z) (r : option value) :
  eq_str (get_default rule "action" (VStr "deny")) "deny" = false →
  eq_str (get_default rule "action" (VStr "deny")) "require_approval" = false →
  eval_rules policy (VDict rule :: rules) action_type target trust_level score =
    Ret r →
  eval_rules policy rules action_type target trust_level score = Ret r.
Proof.
  intros Hdeny Happ H. cbn [eval_rules] in H.
  apply obind_ret in H as (r1 & Hr & H).
  assert (r1 = None) as ->; [|done].
  unfold eval_rule in Hr. cbn [as_dict obind] in Hr.
  apply obind_ret in Hr as (c & _ & Hr).
  apply obind_ret in Hr as ([|] & _ & Hr); [by injection Hr|].
  apply obind_ret in Hr as ([|] & _ & Hr); [by injection Hr|].
  apply obind_ret in Hr as (r2 & Hal & Hr).
  assert (r2 = None) as ->.
  { unfold check_trust_at_least in Hal. rewrite Hdeny in Hal.
    destruct (truthy _); [|by injection Hal].
    apply obind_ret in Hal as (req & _ & Hal).
    destruct (score <? req); by injection Hal. }
  unfold check_trust_below in Hr. rewrite Hdeny, Happ in Hr.
  destruct (truthy _); [|by injection Hr].
  apply obind_ret in Hr as (below & _ & Hr).
  destruct (score <? below); by injection Hr.
Qed.

(** X10. Disabled policies take no part in a decision: evaluating a
    policy list gives what evaluating its enabled policies gives. *)
Theorem disabled_policies_are_skipped
    (policies : list value) (action_type target : string)
    (trust_level : value) (score : Z) :
  eval_policies policies action_type target trust_level score =
  eval_policies (filter (λ p, policy_enabled p = true) policies)
    action_type target trust_level score.
Proof.
  induction policies as [|policy policies IH]; [done|].
  rewrite filter_cons. destruct (decide (policy_enabled policy = true)) as [Hen|Hdis].
  - cbn [eval_policies]. by rewrite IH.
  - cbn [eval_policies]. rewrite <- IH.
    destruct policy as [| | | | |d]; try (by destruct Hdis).
    unfold eval_policy. cbn [as_dict obind]. cbn [policy_enabled] in Hdis.
    apply not_true_is_false in Hdis. by rewrite Hdis.
Qed.

(** X11. Policies decide in stored order and the first decision is
    final: once a policy has decided, the policies behind it are not
    looked at, and a run of policies that decide nothing leaves the
    evaluation to the rest. *)
Theorem first_deciding_policy_wins
    (before behind : list value) (action_type target : string)
    (trust_level : value) (score : Z) (r : option value) :
  eval_policies before action_type target trust_level score = Ret r →
  eval_policies (before ++ behind) action_type target trust_level score =
    match r with
    | Some decision => Ret (Some decision)
    | None => eval_policies behind action_type target trust_level score
    end.
Proof.
  revert r. induction before as [|policy before IH]; intros r H.
  - by injection H as <-.
  - cbn [app eval_policies] in *.
    apply obind_ret in H as ([d|] & -> & H); cbn [obind].
    + by injection H as <-.
    + by apply IH.
Qed.

(** ** report_incident *)

Lemma coerced_severity_critical severity :
  String.eqb (if negb (str_in severity valid_severities) then "medium" else severity)
    "critical" = String.eqb severity "critical".
Proof.
  destruct (str_in severity valid_severities) eqn:Hin; [done|]. cbn [negb].
  destruct (String.eqb severity "critical") eqn:E; [|done].
  apply String.eqb_eq in E as ->. discriminate Hin.
Qed.

(** The run of [report_incident] once the evidence is decoded: it
    answers, appends the incident and one audit entry, and leaves the
    agent file as [agents_after_incident] says. *)
Lemma report_incident_run
    (incident_type severity description agent_id evidence recommended_action : string)
    (w : world) (evidence_data : value) :
  loads_or evidence (VDict [("raw", VStr evidence)]) = Ret evidence_data →
  ∃ result incident entry,
    report_incident incident_type severity description agent_id evidence
      recommended_action w =
      (Ret (VDict result),
       World (agents_after_incident severity agent_id w) (policies_json w)
             (append_capped (audit_log_json w) entry)
             (append_capped (incidents_json w) (VDict incident))
             (clock w) (S (clock_pos w)) (uuid_hex w) (2 + uuid_pos w)%nat) ∧
    dict_get result "success" = Some (VBool true) ∧
    dict_get result "incident_id" = Some (VStr (drawn_id "inc" w 0)) ∧
    dict_get incident "incident_id" = Some (VStr (drawn_id "inc" w 0)) ∧
    dict_get incident "status" = Some (VStr "open") ∧
    dict_get incident "evidence" = Some evidence_data ∧
    dict_get incident "type" =
      Some (VStr (if str_in incident_type valid_types then incident_type
                  else "other")) ∧
    dict_get incident "severity" =
      Some (VStr (if str_in severity valid_severities then severity
                  else "medium")).
Proof.
  intros Hev.
  unfold report_incident, get_timestamp, generate_id, append_to_json_list,
    load_log, save_log, load_agents, save_agents, ret, lift.
  unfold bind. rewrite Hev.
  cbn [agents_json policies_json uuid_hex uuid_pos clock clock_pos
       audit_log_json incidents_json].
  unfold agents_after_incident. rewrite coerced_severity_critical.
  destruct (String.eqb severity "critical" && negb (String.eqb agent_id ""));
    [cbn [agents_json policies_json uuid_hex uuid_pos clock clock_pos
          audit_log_json incidents_json];
     destruct (agents_json w !! agent_id)|];
    (do 3 eexists; split; [reflexivity|]);
    cbn [dict_get String.eqb Ascii.eqb Bool.eqb];
    destruct (str_in incident_type valid_types),
             (str_in severity valid_severities); by repeat split.
Qed.

(** The run when [json.loads] raises on the evidence: the time and the
    incident id are taken, and nothing is written. *)
Lemma report_incident_raises
    (incident_type severity description agent_id evidence recommended_action : string)
    (w : world) e :
  loads_raises evidence = Some e →
  report_incident incident_type severity description agent_id evidence
    recommended_action w =
    (Raise e,
     World (agents_json w) (policies_json w) (audit_log_json w) (incidents_json w)
           (clock w) (S (clock_pos w)) (uuid_hex w) (S (uuid_pos w))).
Proof.
  intros He. unfold report_incident, get_timestamp, generate_id, lift.
  unfold bind. by rewrite (loads_or_raises _ _ _ He).
Qed.


(** X13. A suspension takes effect at once: after a critical incident
    that names a stored agent by a non-empty id, the next
    [validate_action] of that agent is refused as suspended, whatever
    it asks for and whatever the policies hold.  Both calls are taken
    with texts that pass [json.loads]: an incident whose evidence
    makes it raise suspends nobody, and a validation whose parameters
    make it raise gives no answer. *)
Theorem suspension_takes_effect
    (incident_type description agent_id evidence recommended_action : string)
    (action_type target parameters context : string) (w : world) :
  agent_id ≠ "" → is_Some (agents_json w !! agent_id) →
  loads_raises evidence = None → loads_raises parameters = None →
  let w1 := snd (report_incident incident_type "critical" description agent_id
                   evidence recommended_action w) in
  ∃ result,
    fst (validate_action action_type target agent_id parameters context w1) =
      Ret (VDict result) ∧
    dict_get result "allowed" = Some (VBool false) ∧
    dict_get result "reason" =
      Some (VStr ("Agent '" +:+ agent_id +:+ "' is suspended")).
Proof.
  intros Hid [agent Hag] Hevidence Hparameters. cbv zeta.
  destruct (loads_or_returns evidence (VDict [("raw", VStr evidence)]) Hevidence)
    as (evidence_data & Hev).
  destruct (loads_or_returns parameters (VDict []) Hparameters) as (params & Hp).
  destruct (report_incident_run incident_type "critical" description agent_id
              evidence recommended_action w evidence_data Hev)
    as (r & incident & entry & -> & _). cbn [snd].
  rewrite validate_action_run, Hp.
  unfold decision_of, is_suspended, resolved_agents.
  cbn [agents_json]. unfold agents_after_incident.
  apply String.eqb_neq in Hid. rewrite Hid, Hag. cbn [String.eqb Ascii.eqb Bool.eqb andb negb].
  rewrite !lookup_insert_eq. cbn [default from_option id].
  destruct (suspend_record_fields agent (clock w (clock_pos w)) (drawn_id "inc" w 0))
    as (Hst & _).
  unfold get_none. rewrite (get_default_some _ _ _ _ Hst).
  cbn [eq_str String.eqb Ascii.eqb Bool.eqb fst].
  eexists. split; [reflexivity|]. by split.
Qed.

(** ** register_agent *)

(** A registration writes nothing before its three texts are decoded
    and its trust level is checked: a call that ends there, in an
    answer or in an exception of [json.loads], has read the clock and
    done nothing else. *)
Lemma register_agent_invalid_run
    (agent_id name description trust_level allowed_tools denied_tools metadata : string)
    (w : world) :
  trust_level ∉ valid_trust_levels →
  snd (register_agent agent_id name description trust_level allowed_tools
         denied_tools metadata w) =
    World (agents_json w) (policies_json w) (audit_log_json w) (incidents_json w)
          (clock w) (S (clock_pos w)) (uuid_hex w) (uuid_pos w) ∧
  (registration_texts_pass allowed_tools denied_tools metadata →
   ∃ result,
     fst (register_agent agent_id name description trust_level allowed_tools
            denied_tools metadata w) = Ret (VDict result) ∧
     dict_get result "success" = Some (VBool false)).
Proof.
  intros Hbad.
  assert (str_in trust_level valid_trust_levels = false) as Hin.
  { apply not_true_is_false. unfold str_in.
    intros (x & Hx & ->%String.eqb_eq)%existsb_exists.
    by apply Hbad, list_elem_of_In. }
  unfold register_agent, bind, get_timestamp, lift. rewrite Hin. cbn [negb].
  split.
  - destruct (loads_list allowed_tools); [|done..].
    destruct (loads_list denied_tools); [|done..].
    by destruct (loads_or metadata (VDict [])).
  - intros (Ha & Hd & Hm).
    destruct (loads_list_returns _ Ha) as (al & ->).
    destruct (loads_list_returns _ Hd) as (dl & ->).
    destruct (loads_or_returns _ (VDict []) Hm) as (meta & ->).
    cbn. eexists. by split.
Qed.

(** X14. A registration with a trust level outside low / medium / high
    / admin writes nothing, whatever its other arguments: no agent is
    created or changed and no audit entry is added.  When its three
    JSON texts pass [json.loads], it is answered with [success]
    false. *)
Theorem register_agent_rejects_unknown_level
    (agent_id name description trust_level allowed_tools denied_tools metadata : string)
    (w : world) :
  trust_level ∉ valid_trust_levels →
  let run := register_agent agent_id name description trust_level allowed_tools
               denied_tools metadata w in
  (agents_json (snd run) = agents_json w ∧ policies_json (snd run) = policies_json w ∧
   audit_log_json (snd run) = audit_log_json w ∧
   incidents_json (snd run) = incidents_json w) ∧
  (registration_texts_pass allowed_tools denied_tools metadata →
   ∃ result,
     fst run = Ret (VDict result) ∧
     dict_get result "success" = Some (VBool false)).
Proof.
  intros Hbad. cbv zeta.
  destruct (register_agent_invalid_run agent_id name description trust_level
              allowed_tools denied_tools metadata w Hbad) as (-> & Hfail).
  by split.
Qed.

(** The run of [register_agent] with a valid trust level and texts that
    are decoded. *)
Lemma register_agent_run
    (agent_id name description trust_level allowed_tools denied_tools metadata : string)
    (w : world) (allowed_list denied_list meta : value) :
  trust_level ∈ valid_trust_levels →
  loads_list allowed_tools = Ret allowed_list →
  loads_list denied_tools = Ret denied_list →
  loads_or metadata (VDict []) = Ret meta →
  ∃ result entry,
    register_agent agent_id name description trust_level allowed_tools denied_tools
      metadata w =
      (Ret (VDict result),
       World (<[agent_id :=
                  agent_record agent_id name description trust_level
                    allowed_list denied_list meta
                    (get_default (default [] (agents_json w !! agent_id))
                       "registered_at" (VStr (clock w (clock_pos w))))
                    (clock w (clock_pos w))]> (agents_json w))
             (policies_json w)
             (append_capped (audit_log_json w) entry)
             (incidents_json w)
             (clock w) (S (clock_pos w)) (uuid_hex w) (S (uuid_pos w))) ∧
    dict_get result "success" = Some (VBool true) ∧
    dict_get result "warnings" =
      Some (VList (registration_warnings trust_level allowed_list denied_list)).
Proof.
  intros Hok Ha Hd Hm.
  assert (str_in trust_level valid_trust_levels = true) as Hin.
  { unfold str_in. apply existsb_exists. exists trust_level.
    split; [by apply list_elem_of_In|apply String.eqb_refl]. }
  unfold register_agent, get_timestamp, generate_id, append_to_json_list,
    load_log, save_log, load_agents, save_agents, ret, lift.
  unfold bind. rewrite Ha, Hd, Hm, Hin.
  cbn [negb agents_json policies_json uuid_hex uuid_pos clock clock_pos
       audit_log_json incidents_json].
  do 2 eexists. split; [reflexivity|]. by split.
Qed.

(** The run of [register_agent] when [json.loads] raises on one of its
    texts: the clock has been read and nothing is written. *)
Lemma register_agent_raises
    (agent_id name description trust_level allowed_tools denied_tools metadata : string)
    (w : world) :
  ¬ registration_texts_pass allowed_tools denied_tools metadata →
  ∃ e,
    register_agent agent_id name description trust_level allowed_tools denied_tools
      metadata w =
      (Raise e,
       World (agents_json w) (policies_json w) (audit_log_json w) (incidents_json w)
             (clock w) (S (clock_pos w)) (uuid_hex w) (uuid_pos w)).
Proof.
  intros Hno. unfold register_agent, bind, get_timestamp, lift.
  destruct (loads_raises allowed_tools) as [e|] eqn:Ha.
  { rewrite (loads_list_raises _ _ Ha). by eexists. }
  destruct (loads_list_returns _ Ha) as (al & ->).
  destruct (loads_raises denied_tools) as [e|] eqn:Hd.
  { rewrite (loads_list_raises _ _ Hd). by eexists. }
  destruct (loads_list_returns _ Hd) as (dl & ->).
  destruct (loads_raises metadata) as [e|] eqn:Hm.
  { rewrite (loads_or_raises _ _ _ Hm). by eexists. }
  destruct Hno. by repeat split.
Qed.




(** ** create_policy *)

Lemma validate_rules_from_ok i rules :
  validate_rules_from i rules = (forallb rule_ok rules, "") ∨
  (fst (validate_rules_from i rules) = false ∧ forallb rule_ok rules = false).
Proof.
  revert i. induction rules as [|rule rules IH]; intros i; [by left|].
  cbn [validate_rules_from forallb].
  destruct rule as [| | | | |d]; try (right; by split).
  cbn [rule_ok].
  destruct (truthy (get_default d "condition" (VDict []))); [|right; by split].
  destruct (invalid_action (get_default d "action" (VStr "deny")));
    [right; by split|].
  cbn [negb andb]. apply IH.
Qed.

Lemma validate_policy_rules_on_list (rules : list value) :
  ∃ message,
    _validate_policy_rules (VList rules) =
      Ret (negb (bool_decide (rules = [])) && forallb rule_ok rules, message).
Proof.
  unfold _validate_policy_rules. destruct rules as [|rule rules]; [by eexists|].
  cbn [truthy negb py_iter obind]. rewrite bool_decide_false by done. cbn [negb andb].
  destruct (validate_rules_from_ok 0 (rule :: rules)) as [->|[Hfalse ->]];
    [by eexists|].
  destruct (validate_rules_from 0 (rule :: rules)) as [valid msg].
  cbn [fst] in Hfalse. subst valid. by eexists.
Qed.

(** X18. [_validate_policy_rules] accepts a decoded rule set exactly
    when it is a non-empty list in which every rule is an object with a
    non-empty condition and a valid (or absent) action; one bad rule
    anywhere rejects the whole set. *)
Theorem validate_policy_rules_accepts_iff (rules : list value) :
  ∃ message,
    _validate_policy_rules (VList rules) =
      Ret (negb (bool_decide (rules = [])) && forallb rule_ok rules, message).
Proof. apply validate_policy_rules_on_list. Qed.

Lemma validated_is_list rules message :
  _validate_policy_rules rules = Ret (true, message) →
  ∃ rs, rules = VList rs ∧ rs ≠ [] ∧ forallb rule_ok rs = true.
Proof.
  intros H. destruct rules as [| | |s|rs|d].
  - discriminate H.
  - unfold _validate_policy_rules in H. destruct b; discriminate H.
  - unfold _validate_policy_rules in H. cbn [truthy] in H.
    destruct (negb (negb (n =? 0))); discriminate H.
  - unfold _validate_policy_rules in H. destruct s as [|c s]; [discriminate H|].
    discriminate H.
  - destruct (validate_policy_rules_on_list rs) as (m & Hrs).
    rewrite Hrs in H. injection H as H _. apply andb_prop in H as [Hne Hall].
    exists rs. split; [done|]. split; [|done].
    intros ->. discriminate Hne.
  - unfold _validate_policy_rules in H. destruct d as [|[k v] d]; discriminate H.
Qed.

Lemma create_policy_effects
    (policy_id name description rules : string) (priority : Z) (enabled : bool)
    (w : world) :
  let run := create_policy policy_id name description rules priority enabled w in
  agents_json (snd run) = agents_json w ∧
  incidents_json (snd run) = incidents_json w ∧
  ((∃ result entry, fst run = Ret (VDict result) ∧
              dict_get result "success" = Some (VBool true) ∧
              audit_log_json (snd run) = append_capped (audit_log_json w) entry) ∨
   (policies_json (snd run) = policies_json w ∧
    audit_log_json (snd run) = audit_log_json w ∧
    ∀ result, fst run = Ret (VDict result) →
              dict_get result "success" = Some (VBool false))).
Proof.
  cbv zeta.
  unfold create_policy, get_timestamp, load_policies, save_policies, generate_id,
    append_to_json_list, load_log, save_log, lift, ret.
  unfold bind.
  destruct (decoded_rules rules) as [rules_list|e|e].
  2: { cbn. repeat split; try done. right. repeat split; try done.
       by intros ? [= <-]. }
  2: { cbn. repeat split; try done. right. by repeat split. }
  destruct (_validate_policy_rules rules_list) as [[valid msg]| |] eqn:Hval;
    try (cbn; repeat split; try done; right; by repeat split).
  destruct valid.
  2: { cbn. repeat split; try done. right. repeat split; try done.
       by intros ? [= <-]. }
  apply validated_is_list in Hval as (rs & -> & _ & _).
  cbn [negb policies_json].
  destruct (find_policy_from 0 (policies_json w) policy_id) as [idx| |];
    try (cbn; repeat split; try done; right; by repeat split).
  destruct (sort_by_priority _) as [sorted| |];
    try (cbn; repeat split; try done; right; by repeat split).
  destruct (forallb json_dumps sorted);
    (cbn -[append_capped]; split; [done|]; split; [done|]; left; do 2 eexists;
     by repeat split).
Qed.

(** X19. [create_policy] writes all or nothing: either it answers
    [success] true, or the policy file and the audit log are exactly as
    before, whether it answered a failure or was stopped by an
    exception.  The agent file and the incident log are never
    touched. *)
Theorem create_policy_all_or_nothing
    (policy_id name description rules : string) (priority : Z) (enabled : bool)
    (w : world) :
  let run := create_policy policy_id name description rules priority enabled w in
  agents_json (snd run) = agents_json w ∧
  incidents_json (snd run) = incidents_json w ∧
  ((∃ result, fst run = Ret (VDict result) ∧
              dict_get result "success" = Some (VBool true)) ∨
   (policies_json (snd run) = policies_json w ∧
    audit_log_json (snd run) = audit_log_json w ∧
    ∀ result, fst run = Ret (VDict result) →
              dict_get result "success" = Some (VBool false))).
Proof.
  destruct (create_policy_effects policy_id name description rules priority enabled w)
    as (Hag & Hinc & [(result & entry & Hrun & Hok & _)|Hnone]).
  - split; [exact Hag|]. split; [exact Hinc|]. left. by exists result.
  - split; [exact Hag|]. split; [exact Hinc|]. by right.
Qed.


(** *** The sort of the policy list *)

Lemma insert_desc_perm x s : insert_desc x s ≡ₚ x :: s.
Proof.
  induction s as [|y s IH]; cbn [insert_desc]; [done|].
  destruct (fst y <? fst x); [done|].
  rewrite IH. apply Permutation_swap.
Qed.

Lemma fold_insert_perm l acc :
  fold_left (λ sorted x, insert_desc x sorted) l acc ≡ₚ acc ++ l.
Proof.
  revert acc. induction l as [|x l IH]; intros acc; cbn [fold_left].
  - by rewrite app_nil_r.
  - rewrite IH, insert_desc_perm. cbn [app]. apply Permutation_middle.
Qed.

Lemma insert_desc_sorted x s : desc_pairs s → desc_pairs (insert_desc x s).
Proof.
  induction 1 as [|y s Hs IH Hall]; cbn [insert_desc].
  - by repeat constructor.
  - destruct (fst y <? fst x) eqn:Hlt.
    + apply Z.ltb_lt in Hlt. constructor; [by constructor|].
      constructor; [lia|]. eapply Forall_impl; [exact Hall|].
      intros z Hz. cbn beta in *. lia.
    + apply Z.ltb_ge in Hlt. constructor; [exact IH|].
      rewrite insert_desc_perm. by constructor.
Qed.

Lemma fold_insert_sorted l acc :
  desc_pairs acc → desc_pairs (fold_left (λ sorted x, insert_desc x sorted) l acc).
Proof.
  revert acc. induction l as [|x l IH]; intros acc Hacc; cbn [fold_left]; [done|].
  by apply IH, insert_desc_sorted.
Qed.

Lemma insert_desc_last x s :
  Forall (λ y, fst x ≤ fst y) s → insert_desc x s = s ++ [x].
Proof.
  induction 1 as [|y s Hy Hs IH]; cbn [insert_desc]; [done|].
  destruct (fst y <? fst x) eqn:Hlt; [apply Z.ltb_lt in Hlt; lia|].
  by rewrite IH.
Qed.

Lemma fold_insert_id l acc :
  desc_pairs (acc ++ l) →
  fold_left (λ sorted x, insert_desc x sorted) l acc = acc ++ l.
Proof.
  revert acc. induction l as [|x l IH]; intros acc Hs; cbn [fold_left].
  - by rewrite app_nil_r.
  - rewrite insert_desc_last.
    + rewrite IH; rewrite <- app_assoc; done.
    + apply Forall_forall. intros y Hy.
      apply (StronglySorted_app_1_elem_of _ _ _ y x Hs); [done|set_solver].
Qed.

Lemma priority_keys_are ps ks ns :
  priority_keys ps = Ret ks → int_keys ks = Ret ns → ns = map priority_of ps.
Proof.
  revert ks ns. induction ps as [|p ps IH]; intros ks ns Hk Hn.
  - injection Hk as <-. by injection Hn as <-.
  - cbn [priority_keys] in Hk.
    apply obind_ret in Hk as (d & Hd & Hk).
    apply obind_ret in Hk as (ks' & Hks & Hk). injection Hk as <-.
    cbn [int_keys] in Hn.
    apply obind_ret in Hn as (n & Hkey & Hn).
    apply obind_ret in Hn as (ns' & Hns & Hn). injection Hn as <-.
    cbn [map]. f_equal; [|by eapply IH].
    destruct p; try discriminate Hd. injection Hd as ->. cbn [priority_of].
    destruct (get_default d "priority" (VNum 0)) as [|[|]| | | |];
      by try injection Hkey as <-.
Qed.

Lemma sorted_pairs_sorted_values (l : list (Z * value)) :
  Forall (λ e, fst e = priority_of (snd e)) l →
  desc_pairs l → by_priority (map snd l).
Proof.
  intros Hkeys. induction 1 as [|e l Hl IH Hall]; cbn [map]; [constructor|].
  apply Forall_cons in Hkeys as [He Hkeys].
  constructor; [by apply IH|].
  apply Forall_fmap. apply Forall_forall. intros e' Hin. cbn.
  rewrite Forall_forall in Hall. rewrite Forall_forall in Hkeys.
  rewrite <- He, <- (Hkeys _ Hin). by apply Hall.
Qed.

Lemma zip_keys ps :
  Forall (λ e, fst e = priority_of (snd e)) (zip (map priority_of ps) ps).
Proof. induction ps; cbn; by constructor. Qed.

Lemma zip_keys_snd ps : map snd (zip (map priority_of ps) ps) = ps.
Proof. induction ps; cbn; by f_equal. Qed.

Lemma sorted_values_sorted_pairs ps :
  by_priority ps → desc_pairs (zip (map priority_of ps) ps).
Proof.
  induction 1 as [|p ps Hps IH Hall]; cbn; [constructor|].
  constructor; [exact IH|].
  apply Forall_forall. intros e Hin.
  pose proof (zip_keys ps) as Hk.
  rewrite Forall_forall in Hk. rewrite Forall_forall in Hall.
  rewrite (Hk _ Hin). cbn. apply Hall.
  rewrite <- (zip_keys_snd ps). apply list_elem_of_fmap. by exists e.
Qed.

Lemma with_key_cons k e l :
  with_key k (e :: l) = if decide (fst e = k) then e :: with_key k l else with_key k l.
Proof. unfold with_key. by rewrite filter_cons. Qed.

Lemma with_key_none k l : Forall (λ e, fst e ≠ k) l → with_key k l = [].
Proof.
  induction 1 as [|e l He Hl IH]; [done|].
  rewrite with_key_cons, IH. by destruct (decide (fst e = k)).
Qed.

(** The insertion is stable: the entries of each key keep their order,
    the new one behind the others of its key. *)
Lemma insert_desc_with_key x s k :
  desc_pairs s → with_key k (insert_desc x s) = with_key k s ++ with_key k [x].
Proof.
  induction 1 as [|y s Hs IH Hall]; cbn [insert_desc]; [done|].
  destruct (fst y <? fst x) eqn:Hlt.
  - apply Z.ltb_lt in Hlt.
    rewrite (with_key_cons k x (y :: s)), (with_key_cons k x []).
    destruct (decide (fst x = k)) as [Hk|Hk]; [|by rewrite app_nil_r].
    rewrite (with_key_none k (y :: s)); [done|].
    constructor; [lia|].
    eapply Forall_impl; [exact Hall|]. intros z Hz. cbn beta in *. lia.
  - rewrite !(with_key_cons k y), IH. by destruct (decide (fst y = k)).
Qed.

Lemma fold_insert_with_key l acc k :
  desc_pairs acc →
  with_key k (fold_left (λ sorted x, insert_desc x sorted) l acc) =
    with_key k acc ++ with_key k l.
Proof.
  revert acc. induction l as [|x l IH]; intros acc Hacc; cbn [fold_left].
  - by rewrite app_nil_r.
  - rewrite IH by (by apply insert_desc_sorted).
    rewrite insert_desc_with_key by done.
    rewrite (with_key_cons k x l), (with_key_cons k x []), <- app_assoc.
    by destruct (decide (fst x = k)).
Qed.

Lemma with_priority_values (l : list (Z * value)) k :
  Forall (λ e, fst e = priority_of (snd e)) l →
  with_priority k (map snd l) = map snd (with_key k l).
Proof.
  unfold with_priority, with_key.
  induction 1 as [|e l He Hl IH]; [done|].
  cbn [map]. rewrite !filter_cons, IH, <- He.
  by destruct (decide (fst e = k)).
Qed.

Lemma sort_by_priority_spec (policies sorted : list value) :
  sort_by_priority policies = Ret sorted →
  sorted ≡ₚ policies ∧ by_priority sorted ∧
  (by_priority policies → sorted = policies) ∧
  ∀ k, with_priority k sorted = with_priority k policies.
Proof.
  unfold sort_by_priority. intros H.
  apply obind_ret in H as (ks & Hks & H).
  apply obind_ret in H as (ns & Hns & H). injection H as <-.
  rewrite (priority_keys_are _ _ _ Hks Hns). unfold sort_desc.
  split; [|split; [|split]].
  - rewrite fold_insert_perm. cbn [app]. by rewrite zip_keys_snd.
  - apply sorted_pairs_sorted_values.
    + rewrite fold_insert_perm. apply zip_keys.
    + apply fold_insert_sorted. constructor.
  - intros Hs. rewrite fold_insert_id; [apply zip_keys_snd|].
    by apply sorted_values_sorted_pairs.
  - intros k. rewrite with_priority_values.
    + rewrite fold_insert_with_key by constructor.
      rewrite (with_key_none k []) by constructor. cbn [app].
      rewrite <- with_priority_values by apply zip_keys.
      by rewrite zip_keys_snd.
    + rewrite fold_insert_perm. apply zip_keys.
Qed.

(** X20. The sort that [create_policy] applies is the stable sort by
    descending priority: it keeps every policy, puts the policies in
    descending order of priority, and leaves the policies of each
    priority in the order in which they stood, whatever the order of
    the list was.  A list already in order is therefore not changed. *)
Theorem sort_by_priority_sorts (policies sorted : list value) :
  sort_by_priority policies = Ret sorted →
  sorted ≡ₚ policies ∧ by_priority sorted ∧
  (∀ k, with_priority k sorted = with_priority k policies) ∧
  (by_priority policies → sorted = policies).
Proof.
  intros H. destruct (sort_by_priority_spec _ _ H) as (Hperm & Hsorted & Hid & Hstable).
  by repeat split.
Qed.

(** *** The store after a successful create_policy *)












(** ** The retention bound as an invariant *)

Lemma registration_texts_cases allowed_tools denied_tools metadata :
  registration_texts_pass allowed_tools denied_tools metadata ∨
  ¬ registration_texts_pass allowed_tools denied_tools metadata.
Proof.
  unfold registration_texts_pass.
  destruct (loads_raises allowed_tools); [right; by intros ([=] & _)|].
  destruct (loads_raises denied_tools); [right; by intros (_ & [=] & _)|].
  destruct (loads_raises metadata); [right; by intros (_ & _ & [=])|].
  by left.
Qed.

(** What a call of [register_agent] does to the logs. *)
Lemma register_agent_logs
    (agent_id name description trust_level allowed_tools denied_tools metadata : string)
    (w : world) :
  let w' := snd (register_agent agent_id name description trust_level allowed_tools
                   denied_tools metadata w) in
  incidents_json w' = incidents_json w ∧
  (audit_log_json w' = audit_log_json w ∨
   ∃ entry, audit_log_json w' = append_capped (audit_log_json w) entry).
Proof.
  cbv zeta.
  destruct (registration_texts_cases allowed_tools denied_tools metadata)
    as [Hpass|Hno]; cycle 1.
  { destruct (register_agent_raises agent_id name description trust_level
                allowed_tools denied_tools metadata w Hno) as (e & ->).
    split; [done|by left]. }
  destruct (decide (trust_level ∈ valid_trust_levels)) as [Hok|Hbad].
  - destruct Hpass as (Ha & Hd & Hm).
    destruct (loads_list_returns _ Ha) as (al & Hal).
    destruct (loads_list_returns _ Hd) as (dl & Hdl).
    destruct (loads_or_returns _ (VDict []) Hm) as (meta & Hmeta).
    destruct (register_agent_run agent_id name description trust_level
                allowed_tools denied_tools metadata w al dl meta Hok Hal Hdl Hmeta)
      as (r & e & -> & _).
    split; [done|right; by eexists].
  - destruct (register_agent_invalid_run agent_id name description trust_level
                allowed_tools denied_tools metadata w Hbad) as (-> & _).
    split; [done|by left].
Qed.

(** X23. No tool lets a log grow beyond [max_items]: if both logs are
    within the bound before a call of [validate_action],
    [report_incident], [create_policy] or [register_agent], they are
    within it afterwards, whatever the call returns. *)
Theorem tools_keep_logs_bounded (w : world) :
  logs_bounded w →
  (∀ action_type target agent_id parameters context,
     logs_bounded
       (snd (validate_action action_type target agent_id parameters context w))) ∧
  (∀ incident_type severity description agent_id evidence recommended_action,
     logs_bounded
       (snd (report_incident incident_type severity description agent_id evidence
               recommended_action w))) ∧
  (∀ policy_id name description rules priority enabled,
     logs_bounded
       (snd (create_policy policy_id name description rules priority enabled w))) ∧
  (∀ agent_id name description trust_level allowed_tools denied_tools metadata,
     logs_bounded
       (snd (register_agent agent_id name description trust_level allowed_tools
               denied_tools metadata w))).
Proof.
  intros [Haud Hinc]. repeat split.
  - rewrite validate_action_run.
    destruct (loads_or parameters (VDict [])); [|done..].
    destruct (decision_of _ _ _ _ _); cbn [snd]; try done. apply append_capped_bound.
  - rewrite validate_action_run.
    destruct (loads_or parameters (VDict [])); [|done..].
    destruct (decision_of _ _ _ _ _) as [r| |]; cbn [snd]; try done.
    unfold world_after_answer. cbn [incidents_json].
    destruct (refused r); [apply append_capped_bound|done].
  - destruct (loads_or_cases evidence (VDict [("raw", VStr evidence)]))
      as [(v & _ & Hv)|(x & Hx & _)].
    + destruct (report_incident_run incident_type severity description agent_id
                  evidence recommended_action w v Hv) as (r & i & e & -> & _).
      apply append_capped_bound.
    + by rewrite (report_incident_raises _ _ _ _ _ _ _ _ Hx).
  - destruct (loads_or_cases evidence (VDict [("raw", VStr evidence)]))
      as [(v & _ & Hv)|(x & Hx & _)].
    + destruct (report_incident_run incident_type severity description agent_id
                  evidence recommended_action w v Hv) as (r & i & e & -> & _).
      apply append_capped_bound.
    + by rewrite (report_incident_raises _ _ _ _ _ _ _ _ Hx).
  - destruct (create_policy_effects policy_id name description rules priority
                enabled w) as (_ & _ & [(r & e & _ & _ & ->)|(_ & -> & _)]);
      [apply append_capped_bound|done].
  - destruct (create_policy_effects policy_id name description rules priority
                enabled w) as (_ & -> & _). done.
  - destruct (register_agent_logs agent_id name description trust_level
                allowed_tools denied_tools metadata w) as (_ & [->|(e & ->)]);
      [done|apply append_capped_bound].
  - destruct (register_agent_logs agent_id name description trust_level
                allowed_tools denied_tools metadata w) as (-> & _). done.
Qed.

(** ** The filter of get_audit_log *)

Lemma given_some o s : given o = Some s → o = Some s ∧ s ≠ "".
Proof.
  destruct o as [t|]; cbn; [|done].
  destruct (String.eqb t "") eqn:E; [done|].
  intros [= <-]. split; [done|]. by apply String.eqb_neq.
Qed.

Lemma keep_entry_sound entry agent_id action_type cutoff status :
  keep_entry entry agent_id action_type cutoff status = Ret true →
  ∃ e, entry = VDict e ∧
    (∀ a, given agent_id = Some a → dict_get e "agent_id" = Some (VStr a)) ∧
    (∀ t, given action_type = Some t →
          ∃ action, dict_get e "action" = Some (VDict action) ∧
                    dict_get action "type" = Some (VStr t)) ∧
    (∀ evaluation, dict_get e "evaluation" = Some evaluation →
       (given status = Some "denied" →
          ∃ ev, evaluation = VDict ev ∧
                truthy (get_default ev "allowed" (VBool true)) = false) ∧
       (given status = Some "allowed" →
          ∃ ev, evaluation = VDict ev ∧
                truthy (get_default ev "allowed" (VBool true)) = true)).
Proof.
  unfold keep_entry. intros H.
  apply obind_ret in H as ([|] & Hagent & H); [discriminate H|].
  apply obind_ret in H as (e & He & H).
  destruct entry; try discriminate He. injection He as ->.
  apply obind_ret in H as ([|] & Htype & H); [discriminate H|].
  apply obind_ret in H as ([|] & _ & H); [discriminate H|].
  exists e. split; [done|]. split; [|split].
  - intros a Ha. rewrite Ha in Hagent. cbn [as_dict obind] in Hagent.
    injection Hagent as Hagent. apply negb_false_iff, eq_str_true in Hagent.
    unfold get_none, get_default in Hagent.
    destruct (dict_get e "agent_id"); [by subst|discriminate Hagent].
  - intros t Ht. rewrite Ht in Htype.
    apply obind_ret in Htype as (action & Hact & Htype).
    injection Htype as Htype. apply negb_false_iff, eq_str_true in Htype.
    unfold get_default in Hact.
    destruct (dict_get e "action") as [v|] eqn:Hv.
    + destruct v; try discriminate Hact. injection Hact as ->.
      eexists. split; [done|]. unfold get_none, get_default in Htype.
      destruct (dict_get action "type"); [by subst|discriminate Htype].
    + injection Hact as <-. discriminate Htype.
  - intros evaluation Hev.
    destruct (given status) as [s|] eqn:Hs; [|by split].
    apply obind_ret in H as (ev & Hdict & H).
    rewrite (get_default_some _ _ _ _ Hev) in Hdict.
    destruct evaluation; try discriminate Hdict. injection Hdict as ->.
    split; intros [= ->]; exists ev; (split; [done|]);
      cbn [String.eqb Ascii.eqb Bool.eqb andb] in H;
      by destruct (truthy (get_default ev "allowed" (VBool true))).
Qed.

(** X24. What [_filter_entries] returns is a selection of the entries
    in their order, and every entry in it meets the filters that were
    given: it is an object of the named agent, of the named action
    type, and, under the status filters [denied] and [allowed], its
    evaluation is not, or is, [allowed]. *)
Theorem filter_entries_sound
    (entries filtered : list value) (agent_id action_type : option string)
    (cutoff : option cutoff_time) (status : option string) :
  _filter_entries entries agent_id action_type cutoff status = Ret filtered →
  filtered `sublist_of` entries ∧
  ∀ entry, entry ∈ filtered →
    ∃ e, entry = VDict e ∧
      (∀ a, given agent_id = Some a → dict_get e "agent_id" = Some (VStr a)) ∧
      (∀ t, given action_type = Some t →
            ∃ action, dict_get e "action" = Some (VDict action) ∧
                      dict_get action "type" = Some (VStr t)) ∧
      (∀ evaluation, dict_get e "evaluation" = Some evaluation →
         (given status = Some "denied" →
            ∃ ev, evaluation = VDict ev ∧
                  truthy (get_default ev "allowed" (VBool true)) = false) ∧
         (given status = Some "allowed" →
            ∃ ev, evaluation = VDict ev ∧
                  truthy (get_default ev "allowed" (VBool true)) = true)).
Proof.
  revert filtered. induction entries as [|entry entries IH]; intros filtered H.
  - injection H as <-. split; [done|]. intros ? []%elem_of_nil.
  - cbn [_filter_entries] in H.
    apply obind_ret in H as (keep & Hkeep & H).
    apply obind_ret in H as (rest & Hrest & H). injection H as <-.
    destruct (IH _ Hrest) as [Hsub Hall]. destruct keep.
    + split; [by apply sublist_skip|].
      intros x [->|Hx]%elem_of_cons; [by eapply keep_entry_sound|by apply Hall].
    + split; [by apply sublist_cons|done].
Qed.

(** X25. The filter loses nothing it should keep: without a cutoff, an
    entry of the log that is an object of the named agent is returned
    when no other filter is given. *)
Theorem filter_entries_by_agent_complete
    (entries filtered : list value) (agent_id : string) (e : dict) :
  _filter_entries entries (Some agent_id) None None None = Ret filtered →
  VDict e ∈ entries →
  dict_get e "agent_id" = Some (VStr agent_id) →
  VDict e ∈ filtered.
Proof.
  revert filtered. induction entries as [|entry entries IH]; intros filtered H Hin Hid.
  - by apply elem_of_nil in Hin.
  - cbn [_filter_entries] in H.
    apply obind_ret in H as (keep & Hkeep & H).
    apply obind_ret in H as (rest & Hrest & H). injection H as <-.
    apply elem_of_cons in Hin as [<-|Hin].
    + unfold keep_entry in Hkeep. cbn [given] in Hkeep.
      destruct (String.eqb agent_id "") eqn:Hempty.
      * cbn in Hkeep. injection Hkeep as <-. apply list_elem_of_here.
      * cbn [as_dict obind] in Hkeep. unfold get_none in Hkeep.
        rewrite (get_default_some _ _ _ _ Hid) in Hkeep.
        cbn [eq_str] in Hkeep. rewrite String.eqb_refl in Hkeep.
        cbn in Hkeep. injection Hkeep as <-. apply list_elem_of_here.
    + destruct keep; [apply list_elem_of_further|]; by apply IH.
Qed.


(** ** The pattern matcher on well-behaved patterns *)

(** X27. On a pattern made of [*] and of characters without a meaning
    in [re], and a value without a newline, both of 7-bit ASCII,
    [_match_pattern] returns, and returns what the glob of section 4.1
    asks for: [*] stands for any run of characters, every other
    character for itself up to the case of the ASCII letters, and the
    whole value is consumed. *)
Theorem match_pattern_agrees_with_glob (pattern text : string) :
  glob_pattern pattern = true → ascii_text pattern = true →
  no_newline text = true → ascii_text text = true →
  _match_pattern (VStr pattern) text = Ret (matches_spec pattern text).
Proof. apply match_pattern_glob. Qed.

Lemma any_then_end text : any_then (λ s, String.eqb s "") text = true.
Proof. induction text as [|c text IH]; cbn; [done|]. by rewrite IH. Qed.

Lemma glob_prefix prefix text :
  all_plain prefix = true → glob (prefix +:+ "*") text = starts_with prefix text.
Proof.
  revert text. induction prefix as [|c prefix IH]; intros text Hp.
  - rewrite append_nil. cbn [glob is_char String.eqb Ascii.eqb Bool.eqb starts_with].
    apply any_then_end.
  - cbn [all_plain] in Hp. apply andb_prop in Hp as [Hc Hp].
    apply andb_prop in Hc as [Hstar _]. apply negb_true_iff in Hstar.
    rewrite append_cons. cbn [glob starts_with]. rewrite Hstar.
    destruct text as [|d text]; [done|]. by rewrite IH.
Qed.

Lemma all_plain_glob_pattern prefix :
  all_plain prefix = true → glob_pattern (prefix +:+ "*") = true.
Proof.
  induction prefix as [|c prefix IH]; intros Hp; [done|].
  cbn [all_plain] in Hp. apply andb_prop in Hp as [Hc Hp].
  apply andb_prop in Hc as [Hstar Hplain]. apply negb_true_iff in Hstar.
  rewrite append_cons. cbn [glob_pattern]. rewrite Hstar, Hplain. by apply IH.
Qed.

Lemma ascii_text_app s t :
  ascii_text s = true → ascii_text t = true → ascii_text (s +:+ t) = true.
Proof.
  induction s as [|c s IH]; intros Hs Ht; [by rewrite append_nil|].
  cbn [ascii_text] in Hs. apply andb_prop in Hs as [Hc Hs].
  rewrite append_cons. cbn [ascii_text]. by rewrite Hc, IH.
Qed.

(** X28. A pattern that is a plain text followed by [*], like
    [delete_*], matches exactly the values that begin with that text,
    the case of the ASCII letters ignored; pattern and value are of
    7-bit ASCII and the value has no newline. *)
Theorem prefix_pattern_matches_prefix (prefix text : string) :
  all_plain prefix = true → ascii_text prefix = true →
  no_newline text = true → ascii_text text = true →
  _match_pattern (VStr (prefix +:+ "*")) text = Ret (starts_with prefix text).
Proof.
  intros Hp Hpa Hv Hva.
  rewrite match_pattern_glob
    by (by try apply all_plain_glob_pattern; try apply ascii_text_app).
  unfold matches_spec. rewrite glob_prefix by done.
  destruct (starts_with prefix text) eqn:E; [by rewrite orb_true_r|].
  rewrite orb_false_r. f_equal.
  destruct prefix as [|c prefix]; [discriminate E|].
  rewrite append_cons. cbn [String.eqb].
  destruct (Ascii.eqb c "*"); [|done].
  destruct prefix; [by rewrite append_nil|by rewrite append_cons].
Qed.

(** ** More on validate_action *)

Lemma any_match_first before pattern behind target :
  Forall (λ q, _match_pattern q target = Ret false) before →
  _match_pattern pattern target = Ret true →
  any_match (before ++ pattern :: behind) target = Ret true.
Proof.
  intros Hbefore Hhit. induction Hbefore as [|q before Hq _ IH]; cbn [app any_match].
  - by rewrite Hhit.
  - by rewrite Hq.
Qed.

(** X29. The deny list of an agent decides before anything else once
    one of its patterns matches: if the patterns in front of it do not
    match, the action is refused as explicitly denied, whatever stands
    behind that pattern in the list, in the allow list and in the
    policies. *)
Theorem denied_tools_decide_first
    (action_type target agent_id : string) (parameters : value)
    (agents : gmap string dict) (policies : list value) (agent : dict)
    (trust : string) (before behind : list value) (pattern : value) :
  agents !! agent_id = Some agent →
  get_default agent "trust_level" (VStr "low") = VStr trust →
  dict_get agent "denied_tools" = Some (VList (before ++ pattern :: behind)) →
  Forall (λ q, _match_pattern q target = Ret false) before →
  _match_pattern pattern target = Ret true →
  _evaluate_policies action_type target agent_id parameters agents policies =
    Ret (deny_agent_denied_tools target agent_id).
Proof.
  intros Hag Htl Hden Hbefore Hhit.
  eapply denied_tools_precedence; [done..|]. by apply any_match_first.
Qed.


End Engine.

(** * The statements at concrete stores *)



Lemma unknown_agent_auto_registered_witness :
  agents_json test_world !! "unknown-agent" = None ∧
  loads_or sample_loads "" (VDict []) = Ret (VDict []) ∧
  ∃ w',
    fst (validate_action sample_repr sample_loads "tool_call" "delete_records"
           "unknown-agent" "" "" test_world) =
      Ret (VDict [("action_id", VStr "act_0123456789ab");
                  ("allowed", VBool false);
                  ("require_approval", VBool false);
                  ("reason", VStr "Delete requires admin");
                  ("warnings", VList [])]) ∧
    w' = snd (validate_action sample_repr sample_loads "tool_call" "delete_records"
                "unknown-agent" "" "" test_world) ∧
    (agents_json w' !! "unknown-agent") ≫= (λ r, dict_get r "status") = None.
Proof.
  assert (agents_json test_world !! "unknown-agent" = None) as Hnew
    by (vm_compute; reflexivity).
  split; [exact Hnew|]. split; [reflexivity|].
  destruct (proj1 (unknown_agent_auto_registered sample_repr sample_loads
                     "tool_call" "delete_records" "unknown-agent" "" "" test_world
                     Hnew) (VDict []) eq_refl)
    as (w' & Hrun & Hag & _ & _ & Hstatus & _).
  exists w'. rewrite Hrun. cbn [fst snd].
  split; [vm_compute; reflexivity|]. split; [reflexivity|].
  rewrite Hag, lookup_insert_eq. exact Hstatus.
Defined.

Lemma trust_level_below_triggers_witness :
  dict_get [("tool_pattern", VStr "delete_*"); ("trust_level_below", VStr "admin")]
    "trust_level_below" = Some (VStr "admin") ∧
  check_trust_below sample_repr
    [("id", VStr "test-policy")]
    [("action", VStr "deny"); ("message", VStr "Delete requires admin")]
    [("tool_pattern", VStr "delete_*"); ("trust_level_below", VStr "admin")]
    (score_of "medium") =
  Ret (Some (VDict [("allowed", VBool false);
                    ("reason", VStr "Delete requires admin");
                    ("policy_matched", VStr "test-policy")])).
Proof.
  split; [reflexivity|].
  exact (proj1 (trust_level_below_triggers sample_repr
                  [("id", VStr "test-policy")]
                  [("action", VStr "deny"); ("message", VStr "Delete requires admin")]
                  [("tool_pattern", VStr "delete_*");
                   ("trust_level_below", VStr "admin")]
                  "medium" "admin" eq_refl)).
Defined.

Lemma trust_level_at_least_only_denies_witness :
  dict_get [("tool_pattern", VStr "read_*"); ("trust_level_at_least", VStr "high")]
    "trust_level_at_least" = Some (VStr "high") ∧
  check_trust_at_least sample_repr
    [("id", VStr "test-policy")]
    [("action", VStr "allow"); ("message", VStr "Read allowed")]
    [("tool_pattern", VStr "read_*"); ("trust_level_at_least", VStr "high")]
    (VStr "low") (score_of "low") "read_data" = Ret None.
Proof.
  split; [reflexivity|].
  exact (proj1 (trust_level_at_least_only_denies sample_repr
                  [("id", VStr "test-policy")]
                  [("action", VStr "allow"); ("message", VStr "Read allowed")]
                  [("tool_pattern", VStr "read_*");
                   ("trust_level_at_least", VStr "high")]
                  "read_data" "low" "high" eq_refl)).
Defined.

Lemma invalid_rules_leave_store_unchanged_witness :
  decoded_rules sample_loads "[{}]" = Decoded (VList [VDict []]) ∧
  invalid_rule_set [VDict []] ∧
  ∃ result w',
    create_policy sample_repr sample_loads "p1" "P" "no condition" "[{}]" 100 true
      test_world = (Ret (VDict result), w') ∧
    dict_get result "success" = Some (VBool false) ∧
    policies_json w' = policies_json test_world.
Proof.
  assert (invalid_rule_set [VDict []]) as Hbad.
  { right. exists (VDict []). split; [apply list_elem_of_here|].
    left. exists []. split; reflexivity. }
  split; [reflexivity|]. split; [exact Hbad|].
  destruct (invalid_rules_leave_store_unchanged sample_repr sample_loads
              "p1" "P" "no condition" "[{}]" 100 true test_world [VDict []]
              eq_refl Hbad)
    as (result & message & w' & Hrun & _ & Hfail & Hpol & _).
  exists result, w'. split; [exact Hrun|]. split; [exact Hfail|exact Hpol].
Defined.

Lemma require_approval_is_denied_and_logged_witness :
  let agent := test_agent "test-low" "Low Trust" "low" "active" in
  let policy :=
    [("id", VStr "deploy-gate");
     ("rules", VList
        [VDict [("condition", VDict [("tool_pattern", VStr "deploy_*");
                                     ("trust_level_below", VStr "high")]);
                ("action", VStr "require_approval");
                ("message", VStr "Deployment needs sign-off")]]);
     ("enabled", VBool true);
     ("priority", VNum 50)] in
  let rule :=
    [("condition", VDict [("tool_pattern", VStr "deploy_*");
                          ("trust_level_below", VStr "high")]);
     ("action", VStr "require_approval");
     ("message", VStr "Deployment needs sign-off")] in
  let condition :=
    [("tool_pattern", VStr "deploy_*"); ("trust_level_below", VStr "high")] in
  (loads_or sample_loads "{}" (VDict []) = Ret (VDict []) ∧
   resolved_agents approval_world "test-low" !! "test-low" = Some agent ∧
   is_suspended (resolved_agents approval_world "test-low") "test-low" = false ∧
   get_default agent "trust_level" (VStr "low") = VStr "low" ∧
   check_denied_tools (get_default agent "denied_tools" (VList [])) "deploy_prod"
     "test-low" = Ret None ∧
   check_allowed_tools (get_default agent "allowed_tools" (VList [])) "deploy_prod"
     "test-low" = Ret None ∧
   policies_json approval_world = [] ++ VDict policy :: [] ∧
   eval_policies sample_repr [] "tool_call" "deploy_prod" (VStr "low")
     (score_of "low") = Ret None ∧
   truthy (get_default policy "enabled" (VBool true)) = true ∧
   get_default policy "rules" (VList []) = VList ([] ++ VDict rule :: []) ∧
   eval_rules sample_repr policy [] "tool_call" "deploy_prod" (VStr "low")
     (score_of "low") = Ret None ∧
   get_default rule "condition" (VDict []) = VDict condition ∧
   pattern_excludes (get_none condition "tool_pattern") "deploy_prod" = Ret false ∧
   pattern_excludes (get_none condition "action_type") "tool_call" = Ret false ∧
   check_trust_at_least sample_repr policy rule condition (VStr "low")
     (score_of "low") "deploy_prod" = Ret None ∧
   dict_get condition "trust_level_below" = Some (VStr "high") ∧
   score_of "low" < score_of "high" ∧
   get_default rule "action" (VStr "deny") = VStr "require_approval") ∧
  ∃ result w' incident,
    validate_action sample_repr sample_loads "tool_call" "deploy_prod" "test-low"
      "{}" "" approval_world = (Ret (VDict result), w') ∧
    dict_get result "allowed" = Some (VBool false) ∧
    dict_get result "require_approval" = Some (VBool true) ∧
    dict_get result "reason" = Some (VStr "Deployment needs sign-off") ∧
    incidents_json w' = [VDict incident] ∧
    dict_get incident "type" = Some (VStr "policy_violation") ∧
    dict_get incident "action_id" = dict_get result "action_id".
Proof.
  cbv zeta.
  assert (resolved_agents approval_world "test-low" !! "test-low" =
            Some (test_agent "test-low" "Low Trust" "low" "active")) as Hag
    by (vm_compute; reflexivity).
  assert (is_suspended (resolved_agents approval_world "test-low") "test-low" = false)
    as Hsusp by (vm_compute; reflexivity).
  assert (score_of "low" < score_of "high") as Hlt by (vm_compute; reflexivity).
  split.
  { repeat (split; [first [exact Hag|exact Hsusp|exact Hlt|reflexivity]|]).
    reflexivity. }
  destruct (require_approval_is_denied_and_logged sample_repr sample_loads
              "tool_call" "deploy_prod" "test-low" "{}" "" approval_world
              (VDict []) _ _ _ _ "low" "high" [] [] [] []
              eq_refl Hag Hsusp eq_refl eq_refl eq_refl eq_refl eq_refl eq_refl
              eq_refl eq_refl eq_refl eq_refl eq_refl eq_refl eq_refl Hlt eq_refl)
    as (result & w' & incident & Hrun & Hreq & Hall & Hreason & _ & _ & _ & Hroom &
        Htype & _ & _ & Hid).
  exists result, w', incident. split; [exact Hrun|]. split; [exact Hall|].
  split; [exact Hreq|]. split; [exact Hreason|].
  split; [apply Hroom; cbn; unfold max_items; lia|].
  split; [exact Htype|exact Hid].
Defined.



(** * The properties beyond the claims at concrete stores *)

Lemma validate_action_incident_iff_refused_witness :
  fst (validate_action sample_repr sample_loads "tool_call" "read_data" "test-low"
         "" "" test_world) =
    Ret (VDict [("action_id", VStr "act_0123456789ab"); ("allowed", VBool true);
                ("require_approval", VBool false);
                ("reason", VStr "Action permitted by default policy");
                ("warnings", VList [])]) ∧
  incidents_json
    (snd (validate_action sample_repr sample_loads "tool_call" "read_data" "test-low"
            "" "" test_world)) = incidents_json test_world.
Proof.
  assert (fst (validate_action sample_repr sample_loads "tool_call" "read_data"
                 "test-low" "" "" test_world) =
          Ret (VDict [("action_id", VStr "act_0123456789ab"); ("allowed", VBool true);
                      ("require_approval", VBool false);
                      ("reason", VStr "Action permitted by default policy");
                      ("warnings", VList [])])) as Hrun by (vm_compute; reflexivity).
  split; [exact Hrun|].
  exact (validate_action_incident_iff_refused sample_repr sample_loads "tool_call"
           "read_data" "test-low" "" "" test_world _ Hrun).
Defined.

Lemma allowed_tools_refuse_unlisted_witness :
  reader_agents !! "reader" = Some reader_agent ∧
  get_default reader_agent "trust_level" (VStr "low") = VStr "medium" ∧
  check_denied_tools (get_default reader_agent "denied_tools" (VList []))
    "delete_x" "reader" = Ret None ∧
  dict_get reader_agent "allowed_tools" = Some (VList [VStr "read_*"]) ∧
  [VStr "read_*"] ≠ [] ∧
  is_star_list (VList [VStr "read_*"]) = false ∧
  any_match [VStr "read_*"] "delete_x" = Ret false ∧
  _evaluate_policies sample_repr "tool_call" "delete_x" "reader" (VDict [])
    reader_agents [] = Ret (deny_agent_allowed_tools "delete_x" "reader").
Proof.
  assert (reader_agents !! "reader" = Some reader_agent) as Hag
    by (vm_compute; reflexivity).
  repeat (split; [first [exact Hag|reflexivity|discriminate]|]).
  exact (allowed_tools_refuse_unlisted sample_repr "tool_call" "delete_x" "reader"
           (VDict []) reader_agents [] reader_agent "medium" [VStr "read_*"]
           Hag eq_refl eq_refl eq_refl ltac:(discriminate) eq_refl eq_refl).
Defined.

Lemma admin_is_never_refused_by_policies_witness :
  test_agents !! "test-admin" = Some (test_agent "test-admin" "Admin" "admin" "active") ∧
  dict_get (test_agent "test-admin" "Admin" "admin" "active") "trust_level" =
    Some (VStr "admin") ∧
  truthy (get_default (test_agent "test-admin" "Admin" "admin" "active")
            "denied_tools" (VList [])) = false ∧
  truthy (get_default (test_agent "test-admin" "Admin" "admin" "active")
            "allowed_tools" (VList [])) = false ∧
  ∃ v, _evaluate_policies sample_repr "tool_call" "delete_records" "test-admin"
         (VDict []) test_agents [test_policy] = Ret v ∧ v = default_allow.
Proof.
  assert (test_agents !! "test-admin" =
            Some (test_agent "test-admin" "Admin" "admin" "active")) as Hag
    by (vm_compute; reflexivity).
  assert (_evaluate_policies sample_repr "tool_call" "delete_records" "test-admin"
            (VDict []) test_agents [test_policy] = Ret default_allow) as Hev
    by (vm_compute; reflexivity).
  repeat (split; [first [exact Hag|reflexivity]|]).
  exists default_allow. split; [exact Hev|].
  exact (admin_is_never_refused_by_policies sample_repr "tool_call" "delete_records"
           "test-admin" (VDict []) test_agents [test_policy] _ _
           Hag eq_refl eq_refl eq_refl Hev).
Defined.

Lemma more_trust_keeps_permission_witness :
  get_default (test_agent "ops" "Ops" "high" "active") "trust_level" (VStr "low") =
    VStr "high" ∧
  score_of "high" ≤ score_of "admin" ∧
  _evaluate_policies sample_repr "tool_call" "deploy_prod" "ops" (VDict [])
    (<["ops" := test_agent "ops" "Ops" "high" "active"]> test_agents)
    [approval_policy] = Ret default_allow ∧
  _evaluate_policies sample_repr "tool_call" "deploy_prod" "ops" (VDict [])
    (<["ops" := dict_set (test_agent "ops" "Ops" "high" "active") "trust_level"
                  (VStr "admin")]> test_agents)
    [approval_policy] = Ret default_allow.
Proof.
  assert (score_of "high" ≤ score_of "admin") as Hle by (vm_compute; discriminate).
  assert (_evaluate_policies sample_repr "tool_call" "deploy_prod" "ops" (VDict [])
            (<["ops" := test_agent "ops" "Ops" "high" "active"]> test_agents)
            [approval_policy] = Ret default_allow) as Hev
    by (vm_compute; reflexivity).
  split; [reflexivity|]. split; [exact Hle|]. split; [exact Hev|].
  exact (more_trust_keeps_permission sample_repr "tool_call" "deploy_prod" "ops"
           (VDict []) test_agents [approval_policy]
           (test_agent "ops" "Ops" "high" "active") "high" "admin"
           eq_refl Hle Hev).
Defined.

Lemma allow_rule_decides_nothing_witness :
  eq_str (get_default read_rule "action" (VStr "deny")) "deny" = false ∧
  eq_str (get_default read_rule "action" (VStr "deny")) "require_approval" = false ∧
  eval_rules sample_repr [("id", VStr "test-policy")] [VDict read_rule]
    "tool_call" "read_data" (VStr "low") 1 = Ret None ∧
  eval_rules sample_repr [("id", VStr "test-policy")] []
    "tool_call" "read_data" (VStr "low") 1 = Ret None.
Proof.
  split; [reflexivity|]. split; [reflexivity|].
  assert (eval_rules sample_repr [("id", VStr "test-policy")] [VDict read_rule]
            "tool_call" "read_data" (VStr "low") 1 = Ret None) as Hev
    by (vm_compute; reflexivity).
  split; [exact Hev|].
  exact (allow_rule_decides_nothing sample_repr _ read_rule [] "tool_call" "read_data"
           (VStr "low") 1 None eq_refl eq_refl Hev).
Defined.

Lemma first_deciding_policy_wins_witness :
  eval_policies sample_repr [test_policy] "tool_call" "delete_records" (VStr "low") 1 =
    Ret (Some (VDict [("allowed", VBool false);
                      ("reason", VStr "Delete requires admin");
                      ("policy_matched", VStr "test-policy")])) ∧
  eval_policies sample_repr ([test_policy] ++ [approval_policy]) "tool_call"
    "delete_records" (VStr "low") 1 =
    Ret (Some (VDict [("allowed", VBool false);
                      ("reason", VStr "Delete requires admin");
                      ("policy_matched", VStr "test-policy")])).
Proof.
  assert (eval_policies sample_repr [test_policy] "tool_call" "delete_records"
            (VStr "low") 1 =
          Ret (Some (VDict [("allowed", VBool false);
                            ("reason", VStr "Delete requires admin");
                            ("policy_matched", VStr "test-policy")]))) as Hev
    by (vm_compute; reflexivity).
  split; [exact Hev|].
  exact (first_deciding_policy_wins sample_repr [test_policy] [approval_policy]
           "tool_call" "delete_records" (VStr "low") 1 _ Hev).
Defined.

Lemma suspension_takes_effect_witness :
  "test-low" ≠ "" ∧ is_Some (agents_json test_world !! "test-low") ∧
  loads_raises sample_loads "{}" = None ∧ loads_raises sample_loads "" = None ∧
  ∃ result,
    fst (validate_action sample_repr sample_loads "tool_call" "read_data" "test-low"
           "" ""
           (snd (report_incident sample_loads "unauthorized_access" "critical"
                   "breach" "test-low" "{}" "" test_world))) = Ret (VDict result) ∧
    dict_get result "allowed" = Some (VBool false).
Proof.
  assert ("test-low" ≠ "") as Hid by discriminate.
  assert (is_Some (agents_json test_world !! "test-low")) as Hag
    by (eexists; vm_compute; reflexivity).
  split; [exact Hid|]. split; [exact Hag|]. split; [reflexivity|].
  split; [reflexivity|].
  destruct (suspension_takes_effect sample_repr sample_loads "unauthorized_access"
              "breach" "test-low" "{}" "" "tool_call" "read_data" "" "" test_world
              Hid Hag eq_refl eq_refl) as (result & Hrun & Hall & _).
  exists result. split; [exact Hrun|exact Hall].
Defined.

Lemma register_agent_rejects_unknown_level_witness :
  ("superadmin" ∉ valid_trust_levels) ∧
  registration_texts_pass sample_loads "[]" "[]" "{}" ∧
  agents_json (snd (register_agent sample_loads "bad-agent" "Bad Agent" ""
                      "superadmin" "[]" "[]" "{}" test_world)) =
    agents_json test_world ∧
  ∃ result,
    fst (register_agent sample_loads "bad-agent" "Bad Agent" "" "superadmin"
           "[]" "[]" "{}" test_world) = Ret (VDict result) ∧
    dict_get result "success" = Some (VBool false).
Proof.
  assert ("superadmin" ∉ valid_trust_levels) as Hno
    by (apply (bool_decide_unpack _); vm_compute; exact I).
  assert (registration_texts_pass sample_loads "[]" "[]" "{}") as Hpass
    by (repeat split; reflexivity).
  split; [exact Hno|]. split; [exact Hpass|].
  destruct (register_agent_rejects_unknown_level sample_loads "bad-agent" "Bad Agent"
              "" "superadmin" "[]" "[]" "{}" test_world Hno)
    as ((Hag & _) & Hfail).
  split; [exact Hag|exact (Hfail Hpass)].
Defined.




Lemma sort_by_priority_sorts_witness :
  sort_by_priority [approval_policy; test_policy; reviewed_policy] =
    Ret [test_policy; reviewed_policy; approval_policy] ∧
  by_priority [test_policy; reviewed_policy; approval_policy] ∧
  with_priority 100 [test_policy; reviewed_policy; approval_policy] =
    [test_policy; reviewed_policy].
Proof.
  assert (sort_by_priority [approval_policy; test_policy; reviewed_policy] =
            Ret [test_policy; reviewed_policy; approval_policy]) as Hsort
    by (vm_compute; reflexivity).
  split; [exact Hsort|].
  destruct (sort_by_priority_sorts _ _ Hsort) as (_ & Hsorted & Hstable & _).
  split; [exact Hsorted|]. rewrite (Hstable 100). reflexivity.
Defined.



Lemma tools_keep_logs_bounded_witness :
  logs_bounded test_world ∧
  logs_bounded
    (snd (validate_action sample_repr sample_loads "tool_call" "delete_records"
            "test-low" "" "" test_world)).
Proof.
  assert (logs_bounded test_world) as Hb by (split; cbn; unfold max_items; lia).
  split; [exact Hb|].
  exact (proj1 (tools_keep_logs_bounded sample_repr sample_loads test_world Hb)
           "tool_call" "delete_records" "test-low" "" "").
Defined.

Lemma filter_entries_sound_witness :
  _filter_entries
    [audit_sample "test-low" true; audit_sample "test-medium" true;
     audit_sample "test-low" false]
    (Some "test-low") None None (Some "denied") = Ret [audit_sample "test-low" false] ∧
  [audit_sample "test-low" false] `sublist_of`
    [audit_sample "test-low" true; audit_sample "test-medium" true;
     audit_sample "test-low" false].
Proof.
  assert (_filter_entries
            [audit_sample "test-low" true; audit_sample "test-medium" true;
             audit_sample "test-low" false]
            (Some "test-low") None None (Some "denied") =
          Ret [audit_sample "test-low" false]) as Hrun by (vm_compute; reflexivity).
  split; [exact Hrun|].
  exact (proj1 (filter_entries_sound _ _ _ _ _ _ Hrun)).
Defined.

Lemma filter_entries_by_agent_complete_witness :
  _filter_entries [audit_sample "test-low" true; audit_sample "test-medium" true]
    (Some "test-medium") None None None = Ret [audit_sample "test-medium" true] ∧
  audit_sample "test-medium" true ∈
    [audit_sample "test-low" true; audit_sample "test-medium" true] ∧
  audit_sample "test-medium" true ∈ [audit_sample "test-medium" true].
Proof.
  assert (_filter_entries [audit_sample "test-low" true; audit_sample "test-medium" true]
            (Some "test-medium") None None None =
          Ret [audit_sample "test-medium" true]) as Hrun by (vm_compute; reflexivity).
  assert (audit_sample "test-medium" true ∈
            [audit_sample "test-low" true; audit_sample "test-medium" true]) as Hin
    by (apply list_elem_of_further, list_elem_of_here).
  split; [exact Hrun|]. split; [exact Hin|].
  exact (filter_entries_by_agent_complete _ _ "test-medium" _ Hrun Hin eq_refl).
Defined.


Lemma match_pattern_agrees_with_glob_witness :
  glob_pattern "delete_*" = true ∧ ascii_text "delete_*" = true ∧
  no_newline "DELETE_records" = true ∧ ascii_text "DELETE_records" = true ∧
  _match_pattern (VStr "delete_*") "DELETE_records" = Ret true.
Proof.
  split; [reflexivity|]. split; [reflexivity|]. split; [reflexivity|].
  split; [reflexivity|].
  exact (match_pattern_agrees_with_glob "delete_*" "DELETE_records"
           eq_refl eq_refl eq_refl eq_refl).
Defined.

Lemma prefix_pattern_matches_prefix_witness :
  all_plain "database_" = true ∧ ascii_text "database_" = true ∧
  no_newline "database_query" = true ∧ ascii_text "database_query" = true ∧
  _match_pattern (VStr "database_*") "database_query" = Ret true.
Proof.
  split; [reflexivity|]. split; [reflexivity|]. split; [reflexivity|].
  split; [reflexivity|].
  exact (prefix_pattern_matches_prefix "database_" "database_query"
           eq_refl eq_refl eq_refl eq_refl).
Defined.

Lemma denied_tools_decide_first_witness :
  reader_agents !! "reader" = Some reader_agent ∧
  get_default reader_agent "trust_level" (VStr "low") = VStr "medium" ∧
  dict_get reader_agent "denied_tools" =
    Some (VList ([VStr "read_secret*"] ++ VStr "read_key" :: [])) ∧
  Forall (λ q, _match_pattern q "read_key" = Ret false) [VStr "read_secret*"] ∧
  _match_pattern (VStr "read_key") "read_key" = Ret true ∧
  _evaluate_policies sample_repr "tool_call" "read_key" "reader" (VDict [])
    reader_agents [test_policy] = Ret (deny_agent_denied_tools "read_key" "reader").
Proof.
  assert (reader_agents !! "reader" = Some reader_agent) as Hag
    by (vm_compute; reflexivity).
  assert (Forall (λ q, _match_pattern q "read_key" = Ret false) [VStr "read_secret*"])
    as Hbefore by (repeat constructor).
  split; [exact Hag|]. split; [reflexivity|]. split; [reflexivity|].
  split; [exact Hbefore|]. split; [reflexivity|].
  exact (denied_tools_decide_first sample_repr "tool_call" "read_key" "reader"
           (VDict []) reader_agents [test_policy] reader_agent "medium"
           [VStr "read_secret*"] [] (VStr "read_key")
           Hag eq_refl eq_refl Hbefore eq_refl).
Defined.

